(** * DrivenPath, chapter 2: the batch generator

    A shallow embedding of [chapter_2/src_2/batch_generator.py] and the
    properties its specification states about it.

    The script is a linear pipeline:
    [create_data] draws n synthetic records, [write_to_csv] serialises
    them with Python's [csv.DictWriter], and two passes built on polars,
    [add_id] and [update_datetime], each load the whole file, change one
    column and write the file back.

    Modelling conventions.
    - Python [int] is [Z]; the [float]s of the script are multiples of
      1/8 and of 1/100 below 2^53 and are carried as exact rationals [Q].
    - The random source and the Faker provider are an explicit tape: one
      [Sample] of raw draws per generated record.
    - The file system is a finite map from paths to file contents.  A
      file's content is the list of its CSV lines, each line the list of
      its fields (the quoting and the line terminators of the text layer
      are not represented; an empty list is a file of zero bytes).
    - A polars [DataFrame] is a list of named columns; a cell is
      [option string], [None] being polars' null.  Cells keep their text:
      the dtype that polars infers for a column is not represented.
    - The date-time formats read and print every numeric field at its
      full width, zero-padded (four digits for [%Y], two for the
      others), with seconds from 00 to 59.
    - Logging and the creation of the output directory are left out:
      directories are not part of the file-system model. *)

From Stdlib Require Import ZArith QArith Qround String Ascii List Lia DecimalString.
From stdpp Require Import base option gmap strings list.

Local Open Scope Z_scope.

(** ** Text helpers *)

Module Text.

(** [str(n)] for a Python [int]. *)
Definition Z_to_string (n : Z) : string :=
  NilZero.string_of_int (Z.to_int n).

Definition digit_char (d : Z) : ascii :=
  ascii_of_nat (48 + Z.to_nat d).

Definition digit_value (c : ascii) : option Z :=
  let n := Z.of_nat (nat_of_ascii c) in
  if (48 <=? n) && (n <=? 57) then Some (n - 48) else None.

(** ["%0wd" % n]: the [w] low decimal digits of [n], most significant
    first.  Every field printed through it is below [10^w]. *)
Fixpoint pad (w : nat) (n : Z) : string :=
  match w with
  | O => ""
  | S w' => String (digit_char ((n / 10 ^ Z.of_nat w') mod 10)) (pad w' n)
  end.

(** Reads exactly [w] decimal digits. *)
Fixpoint scan_number (w : nat) (acc : Z) (s : string) : option (Z * string) :=
  match w with
  | O => Some (acc, s)
  | S w' =>
      match s with
      | String c s' =>
          match digit_value c with
          | Some d => scan_number w' (10 * acc + d) s'
          | None => None
          end
      | EmptyString => None
      end
  end.

(** [s.replace(old, new)] of Python: the leftmost, non-overlapping
    occurrences of [old] are replaced.  [skip] counts the characters
    of a matched occurrence that are still to be dropped. *)
Fixpoint replace_from (skip : nat) (old new s : string) : string :=
  match s with
  | EmptyString => EmptyString
  | String c s' =>
      match skip with
      | S k => replace_from k old new s'
      | O =>
          if String.prefix old s
          then new +:+ replace_from (String.length old - 1) old new s'
          else String c (replace_from O old new s')
      end
  end.

Definition replace (old new s : string) : string :=
  match old with
  | EmptyString =>
      (* an empty pattern matches before every character and at the end *)
      new +:+ String.concat "" (map (fun c => String c new) (list_ascii_of_string s))
  | _ => replace_from O old new s
  end.

Definition LF : ascii := ascii_of_nat 10.

Fixpoint contains_char (c : ascii) (s : string) : bool :=
  match s with
  | EmptyString => false
  | String c' s' => Ascii.eqb c c' || contains_char c s'
  end.

Definition ends_with (suffix s : string) : Prop :=
  exists s0, s = s0 +:+ suffix.

End Text.

(** ** Calendar values and the [strftime]/[strptime] formats *)

Module Calendar.

(** A naive (offset-free) date-time, as Python's [datetime.datetime] and
    chrono's [NaiveDateTime] hold it; a [datetime.date] uses the first
    three fields. *)
Record datetime := mk_datetime {
  year : Z; month : Z; day : Z;
  hour : Z; minute : Z; second : Z
}.

Definition is_leap (y : Z) : bool :=
  (y mod 4 =? 0) && (negb (y mod 100 =? 0) || (y mod 400 =? 0)).

Definition days_in_month (y m : Z) : Z :=
  if m =? 2 then (if is_leap y then 29 else 28)
  else if (m =? 4) || (m =? 6) || (m =? 9) || (m =? 11) then 30
  else 31.

(** The fields denote a moment of the proleptic Gregorian calendar whose
    year is written with four digits. *)
Definition valid (d : datetime) : bool :=
  (0 <=? year d) && (year d <=? 9999) &&
  (1 <=? month d) && (month d <=? 12) &&
  (1 <=? day d) && (day d <=? days_in_month (year d) (month d)) &&
  (0 <=? hour d) && (hour d <=? 23) &&
  (0 <=? minute d) && (minute d <=? 59) &&
  (0 <=? second d) && (second d <=? 59).

(** Python's [datetime] additionally has [MINYEAR = 1]. *)
Definition py_valid (d : datetime) : bool :=
  (1 <=? year d) && valid d.

Inductive field := Year | Month | Day | Hour | Minute | Second.

Inductive item :=
| Numeric (f : field)
| Literal (c : ascii).

Definition field_of_letter (c : ascii) : option field :=
  if Ascii.eqb c "Y" then Some Year
  else if Ascii.eqb c "m" then Some Month
  else if Ascii.eqb c "d" then Some Day
  else if Ascii.eqb c "H" then Some Hour
  else if Ascii.eqb c "M" then Some Minute
  else if Ascii.eqb c "S" then Some Second
  else None.

(** A format string is a sequence of [%]-specifiers and literal
    characters; the script uses the six specifiers above only, anything
    else is kept as literal text. *)
Fixpoint compile_fmt (fmt : string) : list item :=
  match fmt with
  | EmptyString => []
  | String c rest =>
      match rest with
      | String l rest' =>
          match (if Ascii.eqb c "%" then field_of_letter l else None) with
          | Some f => Numeric f :: compile_fmt rest'
          | None => Literal c :: compile_fmt rest
          end
      | EmptyString => [Literal c]
      end
  end.

Definition width (f : field) : nat :=
  match f with Year => 4%nat | _ => 2%nat end.

Definition get (f : field) (d : datetime) : Z :=
  match f with
  | Year => year d | Month => month d | Day => day d
  | Hour => hour d | Minute => minute d | Second => second d
  end.

Definition set (f : field) (v : Z) (d : datetime) : datetime :=
  match f with
  | Year => mk_datetime v (month d) (day d) (hour d) (minute d) (second d)
  | Month => mk_datetime (year d) v (day d) (hour d) (minute d) (second d)
  | Day => mk_datetime (year d) (month d) v (hour d) (minute d) (second d)
  | Hour => mk_datetime (year d) (month d) (day d) v (minute d) (second d)
  | Minute => mk_datetime (year d) (month d) (day d) (hour d) v (second d)
  | Second => mk_datetime (year d) (month d) (day d) (hour d) (minute d) v
  end.

(** Formatting: every numeric field zero-padded to its width. *)
Fixpoint format_items (items : list item) (d : datetime) : string :=
  match items with
  | [] => ""
  | Numeric f :: rest => Text.pad (width f) (get f d) +:+ format_items rest d
  | Literal c :: rest => String c (format_items rest d)
  end.

Definition strftime (fmt : string) (d : datetime) : string :=
  format_items (compile_fmt fmt) d.

(** Parsing: the items are matched left to right against the whole
    input, a numeric field taking exactly [width f] digits; fields that
    the format does not mention keep the value they have in [d]. *)
Fixpoint parse_items (items : list item) (s : string) (d : datetime) : option datetime :=
  match items with
  | [] => if String.eqb s "" then Some d else None
  | Numeric f :: rest =>
      match Text.scan_number (width f) 0 s with
      | Some (v, s') => parse_items rest s' (set f v d)
      | None => None
      end
  | Literal c :: rest =>
      match s with
      | String c' s' => if Ascii.eqb c c' then parse_items rest s' d else None
      | EmptyString => None
      end
  end.

Definition epoch_fields : datetime := mk_datetime 1970 1 1 0 0 0.

(** [strptime fmt s]: [None] when [s] is not a valid date-time written
    in the format [fmt]. *)
Definition strptime (fmt : string) (s : string) : option datetime :=
  match parse_items (compile_fmt fmt) s epoch_fields with
  | Some d => if valid d then Some d else None
  | None => None
  end.

(** [datetime.isoformat(timespec="seconds")] of a naive value. *)
Definition isoformat_datetime (d : datetime) : string :=
  Text.pad 4 (year d) +:+ "-" +:+ Text.pad 2 (month d) +:+ "-" +:+ Text.pad 2 (day d)
  +:+ "T" +:+ Text.pad 2 (hour d) +:+ ":" +:+ Text.pad 2 (minute d) +:+ ":"
  +:+ Text.pad 2 (second d).

(** [date.isoformat()]. *)
Definition isoformat_date (d : datetime) : string :=
  Text.pad 4 (year d) +:+ "-" +:+ Text.pad 2 (month d) +:+ "-" +:+ Text.pad 2 (day d).

End Calendar.

(** ** Python values and the record generator *)

Module Py.

Import Calendar.

(** The values stored in a generated record. *)
Inductive value :=
| VStr (s : string)
| VInt (n : Z)
| VFloat (x : Q).

(** A [dict] with string keys, in insertion order. *)
Definition record := list (string * value).

Fixpoint dict_get (k : string) (d : record) : option value :=
  match d with
  | [] => None
  | (k', v) :: rest => if String.eqb k k' then Some v else dict_get k rest
  end.

Definition keys (d : record) : list string := map fst d.

(** [a / b] on two [int]s (true division).  Every quotient the script
    forms is an eighth of an integer below 2^53, hence exact. *)
Definition truediv (a b : Z) : Q := (inject_Z a / inject_Z b)%Q.

(** The integer nearest to [y], ties going to the even neighbour. *)
Definition round_half_even (y : Q) : Z :=
  let f := Qfloor y in
  match Qcompare (y - inject_Z f) (1 # 2) with
  | Lt => f
  | Gt => f + 1
  | Eq => if Z.even f then f else f + 1
  end.

(** The built-in [round(x, ndigits)] on a [float]: the closest multiple
    of [10 ^ -ndigits], a tie being resolved toward the even choice. *)
Definition round (x : Q) (ndigits : Z) : Q :=
  let scale := inject_Z (10 ^ ndigits) in
  Qred (inject_Z (round_half_even (x * scale)) / scale).

(** [repr] of a non-negative [float] that is a multiple of 1/100: the
    integer part, a point, and one or two fractional digits. *)
Definition float_repr (x : Q) : string :=
  let c := Qfloor (x * inject_Z 100) in
  let frac := c mod 100 in
  Text.Z_to_string (c / 100) +:+ "." +:+
  (if frac mod 10 =? 0 then String (Text.digit_char (frac / 10)) ""
   else Text.pad 2 frac).

(** [str(v)], which is also the text [csv] writes for [v]. *)
Definition str (v : value) : string :=
  match v with
  | VStr s => s
  | VInt n => Text.Z_to_string n
  | VFloat x => float_repr x
  end.

(** One round of draws: what the random module and the Faker provider
    hand to one call of [generate_record]. *)
Record Sample := mk_sample {
  raw_session_duration : Z;
  raw_download_speed : Z;
  raw_upload_speed : Z;
  fake_name : string;
  fake_user_name : string;
  fake_email : string;
  fake_phone_number : string;
  fake_address : string;
  fake_mac_address : string;
  fake_ipv4_public : string;
  fake_iban : string;
  fake_date_of_birth : datetime;
  fake_date_time_between : datetime;
  raw_random_number : Z
}.

(** [random.randint(a, b)] with [a <= b], [raw] being the entropy used. *)
Definition _rand_int (a b : Z) (raw : Z) : Z := a + raw mod (b - a + 1).

(** [fake.random_number(digits, fix_len=True)]. *)
Definition random_number (digits : Z) (raw : Z) : Z :=
  _rand_int (10 ^ (digits - 1)) (10 ^ digits - 1) raw.

Definition session_duration_of (s : Sample) : Z := _rand_int 30 7200 (raw_session_duration s).
Definition download_speed_of (s : Sample) : Z := _rand_int 10 150 (raw_download_speed s).
Definition upload_speed_of (s : Sample) : Z := _rand_int 5 100 (raw_upload_speed s).

Definition generate_record (s : Sample) : record :=
  let session_duration := session_duration_of s in
  let download_speed := download_speed_of s in
  let upload_speed := upload_speed_of s in
  let consumed_traffic :=
    round (truediv ((download_speed + upload_speed) * session_duration) 8) 2 in
  [ ("person_name", VStr (fake_name s));
    ("user_name", VStr (fake_user_name s));
    ("email", VStr (fake_email s));
    ("phone", VStr (fake_phone_number s));
    ("address", VStr (Text.replace (String Text.LF "") ", " (fake_address s)));
    ("mac_address", VStr (fake_mac_address s));
    ("ip_address", VStr (fake_ipv4_public s));
    ("iban", VStr (fake_iban s));
    ("birth_date", VStr (isoformat_date (fake_date_of_birth s)));
    ("accessed_at", VStr (isoformat_datetime (fake_date_time_between s)));
    ("session_duration", VInt session_duration);
    ("download_speed", VInt download_speed);
    ("upload_speed", VInt upload_speed);
    ("consumed_traffic", VFloat consumed_traffic);
    ("personal_number", VInt (random_number 10 (raw_random_number s))) ].

(** [[generate_record() for _ in range(n)]]: the i-th record uses the
    i-th round of draws. *)
Definition create_data (tape : nat -> Sample) (n : Z) : list record :=
  map (fun i => generate_record (tape i)) (seq 0 (Z.to_nat n)).

End Py.

(** ** Files, exceptions and the error-and-state monad of the pipeline *)

(** The content of a file: its CSV lines, each a list of fields. *)
Abbreviation file := (list (list string)).
Abbreviation FS := (gmap string (list (list string))).

Inductive exn :=
| IndexError            (* Python: list index out of range *)
| ValueError            (* csv.DictWriter: dict contains fields not in fieldnames *)
| FileNotFoundError     (* polars: no file at the path *)
| NoDataError           (* polars: empty CSV *)
| ComputeError          (* polars: a line has more fields than the header *)
| DuplicateError        (* polars: two columns with one name *)
| ColumnNotFoundError   (* polars: pl.col names an absent column *)
| ShapeError            (* polars: series length differs from the frame height *)
| ParseError.           (* polars: strict str -> datetime conversion failed *)

Inductive result (A : Type) :=
| Ok (a : A)
| Raise (e : exn).
Arguments Ok {A} a.
Arguments Raise {A} e.

(** A computation reads and writes the file system and either returns
    or raises; the file system it leaves behind is kept in both cases. *)
Definition M (A : Type) : Type := FS -> result A * FS.

Definition ret {A} (a : A) : M A := fun fs => (Ok a, fs).
Definition raise {A} (e : exn) : M A := fun fs => (Raise e, fs).
Definition bind {A B} (c : M A) (k : A -> M B) : M B :=
  fun fs =>
    match c fs with
    | (Ok a, fs') => k a fs'
    | (Raise e, fs') => (Raise e, fs')
    end.
Definition lift {A} (r : result A) : M A := fun fs => (r, fs).

Notation "x <- c ;; k" := (bind c (fun x => k))
  (at level 100, c at next level, right associativity).
Notation "c ;;; k" := (bind c (fun _ => k))
  (at level 100, right associativity).

(** [open(path, "w")]: creates the file or truncates it to zero bytes. *)
Definition open_w (path : string) : M unit :=
  fun fs => (Ok tt, <[path := []]> fs).

(** Appends one line to an open file. *)
Definition write_line (path : string) (l : list string) : M unit :=
  fun fs : FS =>
    match fs !! path with
    | Some f => (Ok tt, <[path := f ++ [l]]> fs)
    | None => (Ok tt, <[path := [l]]> fs)
    end.

(** ** The tabular library (polars) *)

Module Polars.

Import Calendar.

Definition cell := option string.
Definition Series : Type := string * list cell.
Definition DataFrame := list Series.

Definition height (df : DataFrame) : nat :=
  match df with
  | [] => O
  | (_, vs) :: _ => length vs
  end.

Definition columns (df : DataFrame) : list string := map fst df.

Fixpoint get_column (name : string) (df : DataFrame) : option (list cell) :=
  match df with
  | [] => None
  | (n, vs) :: rest => if String.eqb name n then Some vs else get_column name rest
  end.

(** An empty field is read as null, and null is written as an empty
    field. *)
Definition to_cell (s : string) : cell :=
  match s with
  | EmptyString => None
  | _ => Some s
  end.

Definition from_cell (c : cell) : string :=
  match c with
  | Some s => s
  | None => ""
  end.

(** A header name that has occurred [k > 0] times before is renamed
    [name_duplicated_<k-1>]. *)
Fixpoint dedup_header (seen : list string) (hdr : list string) : list string :=
  match hdr with
  | [] => []
  | n :: rest =>
      let k := count_occ string_dec seen n in
      (match k with
       | O => n
       | S k' => n +:+ "_duplicated_" +:+ Text.Z_to_string (Z.of_nat k')
       end) :: dedup_header (n :: seen) rest
  end.

(** Column by column: the first field of every line, then the columns
    of the remaining fields.  A line that ends early yields nulls. *)
Fixpoint parse_columns (hdr : list string) (lines : file) : DataFrame :=
  match hdr with
  | [] => []
  | n :: hdr' =>
      (n, map (fun l => to_cell (hd "" l)) lines)
        :: parse_columns hdr' (map (@tl string) lines)
  end.

Definition read_csv (path : string) : M DataFrame :=
  fun fs : FS =>
    match fs !! path with
    | None => (Raise FileNotFoundError, fs)
    | Some [] => (Raise NoDataError, fs)
    | Some (hdr :: lines) =>
        let names := dedup_header [] hdr in
        if negb (forallb (fun l => (length l <=? length hdr)%nat) lines)
        then (Raise ComputeError, fs)
        else if bool_decide (NoDup names)
        then (Ok (parse_columns names lines), fs)
        else (Raise DuplicateError, fs)
    end.

(** Row by row: the head of every column, then the rows of the tails. *)
Fixpoint rows_of (h : nat) (cols : list (list cell)) : file :=
  match h with
  | O => []
  | S h' => map (fun c => from_cell (hd None c)) cols :: rows_of h' (map (@tl cell) cols)
  end.

Definition to_lines (df : DataFrame) : file :=
  columns df :: rows_of (height df) (map snd df).

Definition write_csv (df : DataFrame) (path : string) : M unit :=
  fun fs => (Ok tt, <[path := to_lines df]> fs).

Fixpoint replace_column (s : Series) (df : DataFrame) : DataFrame :=
  match df with
  | [] => []
  | (n, vs) :: rest =>
      if String.eqb (fst s) n then s :: rest else (n, vs) :: replace_column s rest
  end.

(** [df.with_columns(s)]: a column of that name is replaced where it
    stands; a new name is appended after the last column. *)
Definition with_columns (df : DataFrame) (s : Series) : result DataFrame :=
  match df with
  | [] => Ok [s]
  | _ =>
      if negb (length (snd s) =? height df)%nat then Raise ShapeError
      else match get_column (fst s) df with
           | Some _ => Ok (replace_column s df)
           | None => Ok (df ++ [s])
           end
  end.

(** [.str.to_datetime(fmt)] in its default strict mode: nulls stay
    null, and one value that does not parse fails the whole column. *)
Fixpoint str_to_datetime (fmt : string) (vs : list cell) : result (list (option datetime)) :=
  match vs with
  | [] => Ok []
  | None :: rest =>
      match str_to_datetime fmt rest with
      | Ok ds => Ok (None :: ds)
      | Raise e => Raise e
      end
  | Some s :: rest =>
      match strptime fmt s with
      | None => Raise ParseError
      | Some d =>
          match str_to_datetime fmt rest with
          | Ok ds => Ok (Some d :: ds)
          | Raise e => Raise e
          end
      end
  end.

(** [.dt.strftime(fmt)]. *)
Definition dt_strftime (fmt : string) (ds : list (option datetime)) : list cell :=
  map (option_map (strftime fmt)) ds.

(** What a cell is after a trip through the file: an empty text comes
    back as null. *)
Definition normalize_cell (c : cell) : cell := to_cell (from_cell c).

Definition normalize (df : DataFrame) : DataFrame :=
  map (fun s : Series => (fst s, map normalize_cell (snd s))) df.

(** The invariant of a frame: distinct column names, and columns of one
    length. *)
Definition wf (df : DataFrame) : Prop :=
  NoDup (columns df) /\ Forall (fun s : Series => length (snd s) = height df) df.

End Polars.

(** ** The pipeline of [batch_generator.py] *)

Module Batch.

Import Calendar Py Polars.

(** What the run takes from outside: the draws for the records, the
    [str(uuid.uuid4())] texts in the order they are generated, and the
    wall clock read by [write_to_csv]. *)
Record World := mk_world {
  tape : nat -> Sample;
  uuid4 : nat -> string;
  now : datetime
}.

(** [csv.DictWriter._dict_to_list]: a key outside [fieldnames] is an
    error ([extrasaction="raise"]), a missing key is written as the
    empty [restval]. *)
Definition _dict_to_list (fieldnames : list string) (rowdict : record) : result (list string) :=
  if forallb (fun k => bool_decide (k ∈ fieldnames)) (keys rowdict)
  then Ok (map (fun k => match dict_get k rowdict with
                         | Some v => str v
                         | None => ""
                         end) fieldnames)
  else Raise ValueError.

(** [writer.writerows]: the rows are converted and written one after
    the other, so the rows before a refused one are already on disk. *)
Fixpoint writerows (fieldnames : list string) (path : string) (rows : list record) : M unit :=
  match rows with
  | [] => ret tt
  | r :: rest =>
      l <- lift (_dict_to_list fieldnames r) ;;
      write_line path l ;;;
      writerows fieldnames path rest
  end.

Definition default_fname (w : World) : string :=
  "batch_" +:+ strftime "%Y%m%d_%H%M%S" (now w) +:+ ".csv".

Definition join_path (out_dir fname : string) : string :=
  out_dir +:+ "/" +:+ fname.

(** The file is opened, and thereby created or truncated, before
    [records[0]] is evaluated inside the [with] block. *)
Definition write_to_csv (w : World) (records : list record) (out_dir : string)
    (fname : option string) : M string :=
  let fname := match fname with Some f => f | None => default_fname w end in
  let csv_path := join_path out_dir fname in
  open_w csv_path ;;;
  first <- lift (match records with
                 | r :: _ => Ok r
                 | [] => Raise IndexError
                 end) ;;
  let fieldnames := keys first in
  write_line csv_path fieldnames ;;;
  writerows fieldnames csv_path records ;;;
  ret csv_path.

Definition add_id (w : World) (csv_path : string) : M unit :=
  df <- read_csv csv_path ;;
  let unique_ids := map (uuid4 w) (seq 0 (height df)) in
  df <- lift (with_columns df ("unique_id", map Some unique_ids)) ;;
  write_csv df csv_path.

Definition update_datetime (csv_path : string) : M unit :=
  df <- read_csv csv_path ;;
  col <- lift (match get_column "accessed_at" df with
               | Some vs => Ok vs
               | None => Raise ColumnNotFoundError
               end) ;;
  parsed <- lift (str_to_datetime "%Y-%m-%dT%H:%M:%S" col) ;;
  df <- lift (with_columns df ("accessed_at", dt_strftime "%Y-%m-%dT%H:%M:%SZ" parsed)) ;;
  write_csv df csv_path.

Definition main (w : World) (records : Z) (out_dir : string) : M unit :=
  csv_path <- write_to_csv w (create_data (tape w) records) out_dir None ;;
  add_id w csv_path ;;;
  update_datetime csv_path.

(** The line that [csv] writes for the record generated from [s]. *)
Definition row_text (s : Sample) : list string :=
  map (fun kv : string * value => str (snd kv)) (generate_record s).

(** The number of data rows of the file at [path]: its lines after the
    header. *)
Definition data_rows (fs : FS) (path : string) : option nat :=
  match fs !! path with
  | Some (_ :: lines) => Some (length lines)
  | _ => None
  end.

(** The [accessed_at] values of the file at [path], as polars loads
    them. *)
Definition accessed_at_values (fs : FS) (path : string) : option (list cell) :=
  match read_csv path fs with
  | (Ok df, _) => get_column "accessed_at" df
  | (Raise _, _) => None
  end.

End Batch.

(** ** The textual patterns named by the specification *)

Module Pattern.

Inductive cclass :=
| Digit                 (* \d *)
| Exactly (c : ascii).

Definition is_digit (c : ascii) : bool :=
  match Text.digit_value c with
  | Some _ => true
  | None => false
  end.

(** The whole of [s] matches the sequence of character classes. *)
Fixpoint matches (pat : list cclass) (s : string) : bool :=
  match pat, s with
  | [], EmptyString => true
  | Digit :: p, String c s' => is_digit c && matches p s'
  | Exactly x :: p, String c s' => Ascii.eqb x c && matches p s'
  | _, _ => false
  end.

(** [YYYY-MM-DDTHH:MM:SS], that is [^\d{4}-\d{2}-\d{2}T\d{2}:\d{2}:\d{2}$]. *)
Definition input_pattern : list cclass :=
  [Digit; Digit; Digit; Digit; Exactly "-"; Digit; Digit; Exactly "-";
   Digit; Digit; Exactly "T"; Digit; Digit; Exactly ":"; Digit; Digit;
   Exactly ":"; Digit; Digit].


End Pattern.

(** ** The wording of the specification

    Definitions that follow the specification's words rather than the
    code, to state what it claims and to compare it with the code. *)

Module Spec.

Import Py.

(** "rounded half-up to 2 places": ties go upward. *)
Definition round_half_up (x : Q) (ndigits : Z) : Q :=
  let scale := inject_Z (10 ^ ndigits) in
  Qred (inject_Z (Qfloor (x * scale + (1 # 2))) / scale).

(** "each newline is replaced with the two-character sequence ', '". *)
Fixpoint newlines_to_commas (s : string) : string :=
  match s with
  | EmptyString => EmptyString
  | String c s' =>
      if Ascii.eqb c Text.LF then String "," (String " " (newlines_to_commas s'))
      else String c (newlines_to_commas s')
  end.

(** The 15 fields of a record, in generation order. *)
Definition field_names : list string :=
  ["person_name"; "user_name"; "email"; "phone"; "address"; "mac_address";
   "ip_address"; "iban"; "birth_date"; "accessed_at"; "session_duration";
   "download_speed"; "upload_speed"; "consumed_traffic"; "personal_number"].

(** A field is populated and non-empty when its text is not empty. *)
Definition populated (v : value) : Prop := str v <> "".


(** The provider's contract for its text generators (name, user name,
    e-mail, phone, address, MAC, IPv4, IBAN): the text is not empty. *)
Definition provider_text_nonempty (s : Sample) : Prop :=
  fake_name s <> "" /\ fake_user_name s <> "" /\ fake_email s <> "" /\
  fake_phone_number s <> "" /\ fake_address s <> "" /\
  fake_mac_address s <> "" /\ fake_ipv4_public s <> "" /\ fake_iban s <> "".

End Spec.

(** ** Concrete inputs used by the examples below *)

Module Examples.

Import Calendar Py Polars Batch.

(** Draws giving [session_duration = 31], [download_speed = 10] and
    [upload_speed = 5]: the traffic is 465 / 8 = 58.125, a tie. *)
Definition sample_tie : Sample :=
  mk_sample 1 0 0 "Ann Lee" "ann.lee" "ann@example.org" "555-0100"
    ("1 Main St" +:+ String Text.LF "Springfield") "aa:bb:cc:dd:ee:ff"
    "93.184.216.34" "GB29NWBK60161331926819"
    (mk_datetime 1990 2 3 0 0 0) (mk_datetime 2024 5 6 7 8 9) 5.

Definition tape0 : nat -> Sample := fun _ => sample_tie.

Definition world0 : World :=
  mk_world tape0
           (fun i => "uuid-" +:+ Text.Z_to_string (Z.of_nat i))
           (mk_datetime 2025 1 2 3 4 5).

Definition path0 : string := "data/batch.csv".

(** A file as [write_to_csv] leaves it, cut down to two columns. *)
Definition fs_written : FS :=
  {[ path0 := [ ["person_name"; "accessed_at"];
                ["Ann Lee"; "2024-05-06T07:08:09"];
                ["Bob Ray"; "2023-12-31T23:59:59"] ] ]}.

(** One [accessed_at] value is no timestamp at all. *)
Definition fs_not_a_date : FS :=
  {[ path0 := [ ["person_name"; "accessed_at"];
                ["Ann Lee"; "2024-05-06T07:08:09"];
                ["Bob Ray"; "yesterday"] ] ]}.




(** [fs_written] after one run of [update_datetime]. *)
Definition fs_normalized : FS := snd (update_datetime path0 fs_written).

End Examples.

(** ** Vocabulary for the writer and for whole runs *)

Module Writer.

Import Py Polars Batch Pattern.

(** The text written for key [k] of record [r]: [str] of the value, or
    the empty [restval] when the record has no such key. *)
Definition field_text (r : record) (k : string) : string :=
  match dict_get k r with
  | Some v => str v
  | None => ""
  end.

(** The line written for [r] under the header [fieldnames]. *)
Definition row_of (fieldnames : list string) (r : record) : list string :=
  map (field_text r) fieldnames.

(** Every key of [r] is one of [fieldnames]. *)
Definition fits (fieldnames : list string) (r : record) : Prop :=
  forall k, k ∈ keys r -> k ∈ fieldnames.


(** The path [write_to_csv] writes to. *)
Definition csv_path_of (w : World) (out_dir : string) (fname : option string) : string :=
  join_path out_dir (match fname with Some f => f | None => default_fname w end).

(** [add_id] followed by [update_datetime], and the other order. *)
Definition id_then_datetime (w : World) (path : string) : M unit :=
  add_id w path ;;; update_datetime path.

Definition datetime_then_id (w : World) (path : string) : M unit :=
  update_datetime path ;;; add_id w path.

Fixpoint count_char (c : ascii) (s : string) : nat :=
  match s with
  | EmptyString => O
  | String c' s' => (if Ascii.eqb c c' then 1 else 0) + count_char c s'
  end.


(** [batch_<YYYYMMDD>_<HHMMSS>.csv]. *)
Definition fname_pattern : list cclass :=
  [Exactly "b"; Exactly "a"; Exactly "t"; Exactly "c"; Exactly "h"; Exactly "_";
   Digit; Digit; Digit; Digit; Digit; Digit; Digit; Digit; Exactly "_";
   Digit; Digit; Digit; Digit; Digit; Digit;
   Exactly "."; Exactly "c"; Exactly "s"; Exactly "v"].

End Writer.

Module MoreExamples.

Import Calendar Py Polars Batch.

(** Two records of one shape, then one with a key of its own. *)
Definition rec_a : record := [("name", VStr "Ann"); ("age", VInt 41)].


(** No [accessed_at] column. *)
Definition fs_no_column : FS :=
  {[ Examples.path0 := [ ["person_name"; "iban"]; ["Ann Lee"; "GB29NWBK60161331926819"] ] ]}.

End MoreExamples.

(** * Properties *)

(** ** Digits, padding and scanning *)

#[local] Arguments String.append !_ _ / : simpl nomatch.

Section TextFacts.
Import Text.

Lemma digit_value_char (d : Z) :
  0 <= d <= 9 -> digit_value (digit_char d) = Some d.
Proof.
  intros H.
  assert (Hd : d = 0 \/ d = 1 \/ d = 2 \/ d = 3 \/ d = 4 \/ d = 5 \/ d = 6
               \/ d = 7 \/ d = 8 \/ d = 9) by lia.
  repeat (destruct Hd as [-> | Hd]; [reflexivity |]).
  subst d. reflexivity.
Qed.

Lemma digit_value_inv (c : ascii) (d : Z) :
  digit_value c = Some d -> 0 <= d <= 9 /\ c = digit_char d.
Proof.
  destruct c as [[] [] [] [] [] [] [] []]; intros H; vm_compute in H;
    try discriminate H; injection H as <-; (split; [lia | reflexivity]).
Qed.

Lemma pow10_pos (w : nat) : 0 < 10 ^ Z.of_nat w.
Proof. apply Z.pow_pos_nonneg; lia. Qed.

Lemma pow10_succ (w : nat) : 10 ^ Z.of_nat (S w) = 10 * 10 ^ Z.of_nat w.
Proof. rewrite Nat2Z.inj_succ, Z.pow_succ_r; lia. Qed.

(** The digits printed by [pad w] only depend on [n mod 10 ^ w]. *)
Lemma pad_shift (w : nat) (a n : Z) :
  pad w (a * 10 ^ Z.of_nat w + n) = pad w n.
Proof.
  revert a. induction w as [| w IH]; intros a; [reflexivity |].
  cbn [pad]. f_equal.
  - f_equal. rewrite pow10_succ.
    replace (a * (10 * 10 ^ Z.of_nat w) + n) with (n + (a * 10) * 10 ^ Z.of_nat w) by ring.
    rewrite Z.div_add by (pose proof (pow10_pos w); lia).
    replace (n / 10 ^ Z.of_nat w + a * 10) with (n / 10 ^ Z.of_nat w + a * 10) by ring.
    now rewrite Z.mod_add by lia.
  - rewrite pow10_succ.
    replace (a * (10 * 10 ^ Z.of_nat w)) with ((a * 10) * 10 ^ Z.of_nat w) by ring.
    apply IH.
Qed.

Lemma pad_scan (w : nat) (acc n : Z) (rest : string) :
  0 <= n < 10 ^ Z.of_nat w ->
  scan_number w acc (pad w n +:+ rest) = Some (acc * 10 ^ Z.of_nat w + n, rest).
Proof.
  revert acc n. induction w as [| w IH]; intros acc n Hn.
  - cbn. change (10 ^ Z.of_nat 0) with 1 in *. do 2 f_equal. lia.
  - cbn [pad scan_number String.append].
    pose proof (pow10_pos w) as Hp. rewrite pow10_succ in Hn.
    rewrite digit_value_char
      by (pose proof (Z.mod_pos_bound (n / 10 ^ Z.of_nat w) 10); lia).
    rewrite (Z.div_mod n (10 ^ Z.of_nat w)) at 2 by lia.
    rewrite (Z.mul_comm (10 ^ Z.of_nat w)), pad_shift.
    rewrite IH by (apply Z.mod_pos_bound; lia).
    rewrite (Z.mod_small (n / 10 ^ Z.of_nat w)).
    + do 2 f_equal. rewrite pow10_succ.
      rewrite (Z.div_mod n (10 ^ Z.of_nat w)) at 3 by lia. ring.
    + split; [apply Z.div_pos; lia |].
      apply Z.div_lt_upper_bound; lia.
Qed.

Lemma scan_pad (w : nat) (acc v : Z) (s rest : string) :
  scan_number w acc s = Some (v, rest) ->
  exists m, 0 <= m < 10 ^ Z.of_nat w /\ v = acc * 10 ^ Z.of_nat w + m
            /\ s = pad w m +:+ rest.
Proof.
  revert acc s. induction w as [| w IH]; intros acc s H.
  - cbn in H. injection H as <- <-. exists 0. cbn. split; [lia | split; [lia | reflexivity]].
  - cbn [scan_number] in H. destruct s as [| c s]; [discriminate |].
    destruct (digit_value c) as [d |] eqn:Hc; [| discriminate].
    apply digit_value_inv in Hc as [Hd ->].
    apply IH in H as (m & Hm & -> & ->).
    pose proof (pow10_pos w) as Hp.
    exists (d * 10 ^ Z.of_nat w + m). rewrite pow10_succ.
    split; [nia |]. split; [ring |].
    cbn [pad String.append]. rewrite pad_shift. f_equal.
    rewrite Z.div_add_l by lia. rewrite (Z.div_small m) by lia.
    rewrite Z.add_0_r, Z.mod_small by lia. reflexivity.
Qed.

Lemma append_assoc (a b c : string) : (a +:+ b) +:+ c = a +:+ (b +:+ c).
Proof. induction a as [| x a IH]; cbn; [reflexivity | now rewrite IH]. Qed.

Lemma append_nil_r (a : string) : a +:+ "" = a.
Proof. induction a as [| x a IH]; cbn; [reflexivity | now rewrite IH]. Qed.

Lemma append_cons_nonempty (a : string) (c : ascii) (b : string) :
  a +:+ String c b <> "".
Proof. destruct a; discriminate. Qed.

Lemma Z_to_string_nonempty (n : Z) : Z_to_string n <> "".
Proof.
  unfold Z_to_string. destruct (Z.to_int n) as [d | d]; [| discriminate].
  destruct d; discriminate.
Qed.

End TextFacts.

(** ** Formats and patterns *)

Section CalendarFacts.
Import Text Calendar Pattern.

Lemma pad_scan4 (n : Z) (rest : string) :
  0 <= n <= 9999 -> scan_number 4 0 (pad 4 n +:+ rest) = Some (n, rest).
Proof.
  intros H. rewrite pad_scan; [reflexivity |].
  change (10 ^ Z.of_nat 4) with 10000. lia.
Qed.

Lemma pad_scan2 (n : Z) (rest : string) :
  0 <= n <= 99 -> scan_number 2 0 (pad 2 n +:+ rest) = Some (n, rest).
Proof.
  intros H. rewrite pad_scan; [reflexivity |].
  change (10 ^ Z.of_nat 2) with 100. lia.
Qed.

Lemma days_in_month_le (y m : Z) : days_in_month y m <= 31.
Proof.
  unfold days_in_month.
  repeat match goal with |- context [if ?b then _ else _] => destruct b end; lia.
Qed.

Lemma valid_bounds (d : datetime) :
  valid d = true ->
  0 <= year d <= 9999 /\ 1 <= month d <= 12 /\ 1 <= day d <= 31 /\
  0 <= hour d <= 23 /\ 0 <= minute d <= 59 /\ 0 <= second d <= 59.
Proof.
  unfold valid. rewrite !andb_true_iff, !Z.leb_le.
  pose proof (days_in_month_le (year d) (month d)). lia.
Qed.

Lemma compile_input_fmt :
  compile_fmt "%Y-%m-%dT%H:%M:%S" =
  [Numeric Year; Literal "-"; Numeric Month; Literal "-"; Numeric Day;
   Literal "T"; Numeric Hour; Literal ":"; Numeric Minute; Literal ":";
   Numeric Second].
Proof. reflexivity. Qed.

Lemma compile_output_fmt :
  compile_fmt "%Y-%m-%dT%H:%M:%SZ" =
  [Numeric Year; Literal "-"; Numeric Month; Literal "-"; Numeric Day;
   Literal "T"; Numeric Hour; Literal ":"; Numeric Minute; Literal ":";
   Numeric Second; Literal "Z"].
Proof. reflexivity. Qed.

(** Parsing what [isoformat] printed gives the value back. *)
Lemma strptime_isoformat (d : datetime) :
  valid d = true ->
  strptime "%Y-%m-%dT%H:%M:%S" (isoformat_datetime d) = Some d.
Proof.
  intros Hv. pose proof (valid_bounds d Hv) as (Hy & Hm & Hd & HH & HM & HS).
  unfold strptime. rewrite compile_input_fmt. unfold isoformat_datetime.
  cbn [parse_items width].
  rewrite pad_scan4 by lia. cbn [String.append parse_items width Ascii.eqb Bool.eqb].
  rewrite pad_scan2 by lia. cbn [String.append parse_items width Ascii.eqb Bool.eqb].
  rewrite pad_scan2 by lia. cbn [String.append parse_items width Ascii.eqb Bool.eqb].
  rewrite pad_scan2 by lia. cbn [String.append parse_items width Ascii.eqb Bool.eqb].
  rewrite pad_scan2 by lia. cbn [String.append parse_items width Ascii.eqb Bool.eqb].
  rewrite <- (append_nil_r (pad 2 (second d))).
  rewrite pad_scan2 by lia. cbn.
  destruct d; cbn in *. now rewrite Hv.
Qed.

Ltac invert_numeric H :=
  let v := fresh "v" in let s := fresh "s" in let E := fresh "E" in
  let m := fresh "m" in let Hm := fresh "Hm" in
  cbn [parse_items width] in H;
  match type of H with
  | match scan_number ?w 0 ?x with _ => _ end = _ =>
      destruct (scan_number w 0 x) as [[v s] |] eqn:E; [| discriminate H];
      apply scan_pad in E as (m & Hm & -> & ->);
      rewrite Z.mul_0_l, Z.add_0_l in H
  end.

Ltac invert_literal H :=
  let c := fresh "c" in let s := fresh "s" in let E := fresh "E" in
  cbn [parse_items] in H;
  match type of H with
  | match ?x with _ => _ end = _ =>
      destruct x as [| c s]; [discriminate H |];
      match type of H with
      | (if Ascii.eqb ?a c then _ else _) = _ =>
          destruct (Ascii.eqb_spec a c) as [<- | E]; [| discriminate H]
      end
  end.

(** What parses was printed by [isoformat] from a valid value. *)
Lemma strptime_sound (s : string) (d : datetime) :
  strptime "%Y-%m-%dT%H:%M:%S" s = Some d ->
  valid d = true /\ s = isoformat_datetime d.
Proof.
  unfold strptime. rewrite compile_input_fmt.
  destruct (parse_items _ s epoch_fields) as [d' |] eqn:H; [| discriminate].
  destruct (valid d') eqn:Hv; [| discriminate]. intros [= ->].
  split; [assumption |]. clear Hv.
  invert_numeric H. invert_literal H.
  invert_numeric H. invert_literal H.
  invert_numeric H. invert_literal H.
  invert_numeric H. invert_literal H.
  invert_numeric H. invert_literal H.
  invert_numeric H.
  cbn [parse_items] in H.
  match type of H with
  | (if String.eqb ?x "" then _ else _) = _ =>
      destruct (String.eqb_spec x "") as [-> |]; [| discriminate H]
  end.
  injection H as <-. unfold isoformat_datetime.
  cbn [year month day hour minute second set].
  now rewrite append_nil_r.
Qed.

Lemma strftime_output (d : datetime) :
  strftime "%Y-%m-%dT%H:%M:%SZ" d = isoformat_datetime d +:+ "Z".
Proof.
  unfold strftime. rewrite compile_output_fmt. unfold isoformat_datetime.
  cbn [format_items width get]. rewrite !append_assoc. reflexivity.
Qed.

Lemma is_digit_char (n : Z) : is_digit (digit_char (n mod 10)) = true.
Proof.
  unfold is_digit. rewrite digit_value_char; [reflexivity |].
  pose proof (Z.mod_pos_bound n 10). lia.
Qed.

Lemma matches_pad (w : nat) (n : Z) (p : list cclass) (rest : string) :
  matches (repeat Digit w ++ p) (pad w n +:+ rest) = matches p rest.
Proof.
  induction w as [| w IH]; [reflexivity |].
  cbn [repeat app pad String.append matches]. now rewrite is_digit_char, IH.
Qed.

(** [isoformat] always prints the shape [YYYY-MM-DDTHH:MM:SS]. *)
Lemma isoformat_matches (d : datetime) (p : list cclass) (rest : string) :
  matches (input_pattern ++ p) (isoformat_datetime d +:+ rest) = matches p rest.
Proof.
  unfold isoformat_datetime. rewrite !append_assoc.
  change (input_pattern ++ p) with
    (repeat Digit 4 ++ Exactly "-" :: repeat Digit 2 ++ Exactly "-" ::
     repeat Digit 2 ++ Exactly "T" :: repeat Digit 2 ++ Exactly ":" ::
     repeat Digit 2 ++ Exactly ":" :: repeat Digit 2 ++ p).
  repeat (rewrite matches_pad; cbn [String.append matches Ascii.eqb Bool.eqb andb]).
  reflexivity.
Qed.

Lemma isoformat_matches_input (d : datetime) :
  matches input_pattern (isoformat_datetime d) = true.
Proof.
  rewrite <- (app_nil_r input_pattern), <- (append_nil_r (isoformat_datetime d)).
  apply isoformat_matches.
Qed.


Lemma isoformat_nonempty (d : datetime) : isoformat_datetime d <> "".
Proof. unfold isoformat_datetime. cbn [pad String.append]. discriminate. Qed.

End CalendarFacts.

(** ** The record generator *)

Section GeneratorFacts.
Import Text Calendar Py Spec.

Lemma rand_int_range (a b raw : Z) : a <= b -> a <= _rand_int a b raw <= b.
Proof.
  intros H. unfold _rand_int.
  pose proof (Z.mod_pos_bound raw (b - a + 1)). lia.
Qed.

Lemma replace_newline_from (s : string) :
  replace_from 0 (String LF "") ", " s = newlines_to_commas s.
Proof.
  induction s as [| c s IH]; [reflexivity |].
  cbn [replace_from newlines_to_commas String.prefix String.length].
  destruct (ascii_dec LF c) as [<- | Hne].
  - replace (String.prefix "" s) with true by (destruct s; reflexivity).
    rewrite Ascii.eqb_refl. change (1 - 1)%nat with 0%nat. rewrite IH.
    reflexivity.
  - destruct (Ascii.eqb_spec c LF) as [-> | _]; [congruence |]. now rewrite IH.
Qed.

Lemma replace_newline (s : string) :
  replace (String LF "") ", " s = newlines_to_commas s.
Proof. apply replace_newline_from. Qed.

Lemma newlines_to_commas_clean (s : string) :
  contains_char LF (newlines_to_commas s) = false.
Proof.
  induction s as [| c s IH]; [reflexivity |]. cbn [newlines_to_commas].
  destruct (Ascii.eqb_spec c LF) as [-> | Hne].
  - cbn. exact IH.
  - cbn [contains_char]. rewrite IH.
    destruct (Ascii.eqb_spec LF c); [congruence | reflexivity].
Qed.

Lemma newlines_to_commas_nonempty (s : string) :
  s <> "" -> newlines_to_commas s <> "".
Proof.
  destruct s as [| c s]; [congruence |]. intros _. cbn.
  destruct (Ascii.eqb c LF); discriminate.
Qed.

(** C10. Every record produced by [generate_record] has an [address]
    that contains no newline character: it is the provider's address
    with each newline replaced by the two characters [", "]. *)
Theorem generated_address_has_no_newline (s : Sample) :
  exists a : string,
    dict_get "address" (generate_record s) = Some (VStr a) /\
    a = replace (String LF "") ", " (fake_address s) /\
    a = newlines_to_commas (fake_address s) /\
    contains_char LF a = false.
Proof.
  exists (replace (String LF "") ", " (fake_address s)).
  split; [reflexivity |]. split; [reflexivity |].
  rewrite replace_newline. split; [reflexivity |].
  apply newlines_to_commas_clean.
Qed.

(** [round_half_even] on a fraction, in integer arithmetic. *)
Lemma round_half_even_Qmake (a : Z) (b : positive) :
  round_half_even (a # b) =
  match 2 * (a mod Z.pos b) ?= Z.pos b with
  | Lt => a / Z.pos b
  | Gt => a / Z.pos b + 1
  | Eq => if Z.even (a / Z.pos b) then a / Z.pos b else a / Z.pos b + 1
  end.
Proof.
  unfold round_half_even, Qfloor, Qcompare. cbn [Qnum Qden Qminus Qplus Qopp inject_Z].
  replace ((a * 1 + - (a / Z.pos b) * Z.pos b) * 2)
    with (2 * (a mod Z.pos b)) by (rewrite Z.mod_eq by lia; ring).
  rewrite Pos.mul_1_r. reflexivity.
Qed.

Lemma scaled_traffic (k : Z) :
  (truediv k 8 * inject_Z (10 ^ 2))%Q = (k * 1 * 100 # 8).
Proof. reflexivity. Qed.

(** The hundredths chosen by [round(k / 8, 2)]: the integer nearest to
    [100 * k / 8 = 25 * k / 2], the even one of the two at a tie. *)
Lemma traffic_cents (k : Z) :
  let c := round_half_even (truediv k 8 * inject_Z (10 ^ 2)) in
  Z.abs (2 * c - 25 * k) <= 1 /\
  (Z.abs (2 * c - 25 * k) = 1 -> Z.even c = true).
Proof.
  rewrite scaled_traffic, round_half_even_Qmake. cbv zeta.
  pose proof (Z.div_mod (k * 1 * 100) 8 ltac:(lia)) as Hdm.
  pose proof (Z.mod_pos_bound (k * 1 * 100) 8 ltac:(lia)) as Hb.
  set (q := k * 1 * 100 / 8) in *. set (r := (k * 1 * 100) mod 8) in *.
  destruct (Z.compare_spec (2 * r) 8) as [He | Hl | Hg].
  - destruct (Z.even q) eqn:Hq.
    + split; [lia |]. intros _. exact Hq.
    + split; [lia |]. intros _.
      rewrite Z.add_1_r, Z.even_succ, <- Z.negb_even, Hq. reflexivity.
  - split; [lia |]. intros Habs. exfalso. lia.
  - split; [lia |]. intros Habs. exfalso. lia.
Qed.

(** C3, as the code has it. For every generated record the three drawn
    values lie in 10..150, 5..100 and 30..7200, and [consumed_traffic]
    is [round((download_speed + upload_speed) * session_duration / 8, 2)]:
    a number of hundredths [c / 100] nearest to the quotient, where a
    tie (a quotient ending in ...125, ...375, ...625 or ...875) goes to
    the even hundredth, not upward. *)
Theorem consumed_traffic_rounds_half_even (s : Sample) :
  let d := download_speed_of s in
  let u := upload_speed_of s in
  let t := session_duration_of s in
  let k := (d + u) * t in
  (10 <= d <= 150 /\ 5 <= u <= 100 /\ 30 <= t <= 7200) /\
  dict_get "download_speed" (generate_record s) = Some (VInt d) /\
  dict_get "upload_speed" (generate_record s) = Some (VInt u) /\
  dict_get "session_duration" (generate_record s) = Some (VInt t) /\
  dict_get "consumed_traffic" (generate_record s)
    = Some (VFloat (round (truediv k 8) 2)) /\
  exists c : Z,
    (round (truediv k 8) 2 == c # 100)%Q /\
    Z.abs (2 * c - 25 * k) <= 1 /\
    (Z.abs (2 * c - 25 * k) = 1 -> Z.even c = true).
Proof.
  cbv zeta. split.
  { unfold download_speed_of, upload_speed_of, session_duration_of.
    repeat split; apply rand_int_range; lia. }
  do 4 (split; [reflexivity |]).
  set (k := (download_speed_of s + upload_speed_of s) * session_duration_of s).
  exists (round_half_even (truediv k 8 * inject_Z (10 ^ 2))).
  split; [| apply traffic_cents].
  unfold round. rewrite Qred_correct.
  change (inject_Z (10 ^ 2)) with (100 # 1).
  generalize (round_half_even (truediv k 8 * (100 # 1))). intros c.
  unfold Qeq, Qdiv, Qmult, Qinv, inject_Z. cbn. lia.
Qed.

(** C3, as the specification words it, fails: with [download_speed = 10],
    [upload_speed = 5] and [session_duration = 31] the quotient is
    58.125; the record holds 58.12 where rounding half up gives 58.13. *)
Lemma consumed_traffic_is_not_half_up :
  download_speed_of Examples.sample_tie = 10 /\
  upload_speed_of Examples.sample_tie = 5 /\
  session_duration_of Examples.sample_tie = 31 /\
  dict_get "consumed_traffic" (generate_record Examples.sample_tie)
    = Some (VFloat (1453 # 25)%Q) /\
  str (VFloat (1453 # 25)%Q) = "58.12" /\
  round_half_up (truediv ((10 + 5) * 31) 8) 2 = (5813 # 100)%Q /\
  ~ (1453 # 25 == 5813 # 100)%Q.
Proof.
  repeat split; try reflexivity.
  intros H. vm_compute in H. discriminate H.
Qed.

Lemma create_data_length (tape : nat -> Sample) (n : Z) :
  length (create_data tape n) = Z.to_nat n.
Proof. unfold create_data. now rewrite length_map, length_seq. Qed.

Lemma float_repr_nonempty (x : Q) : float_repr x <> "".
Proof. unfold float_repr. cbn [String.append]. apply append_cons_nonempty. Qed.

Lemma isoformat_date_nonempty (d : datetime) : isoformat_date d <> "".
Proof. unfold isoformat_date. cbn [pad String.append]. discriminate. Qed.

Lemma generate_record_populated (s : Sample) :
  provider_text_nonempty s ->
  keys (generate_record s) = field_names /\
  Forall (fun kv => populated (snd kv)) (generate_record s).
Proof.
  intros (Hn & Hu & He & Hp & Ha & Hm & Hi & Hb).
  split; [reflexivity |].
  unfold generate_record, populated.
  repeat (apply Forall_cons; split); cbn [snd str]; try assumption.
  - rewrite replace_newline. now apply newlines_to_commas_nonempty.
  - apply isoformat_date_nonempty.
  - apply isoformat_nonempty.
  - apply Z_to_string_nonempty.
  - apply Z_to_string_nonempty.
  - apply Z_to_string_nonempty.
  - apply float_repr_nonempty.
  - apply Z_to_string_nonempty.
  - apply Forall_nil. exact I.
Qed.

(** C2. For every n >= 1, [create_data n] returns exactly n records, and
    every record has the 15 fields, each populated and non-empty; the
    eight text fields are what the provider returned, which by its
    contract is not empty. *)
Theorem create_data_gives_n_populated_records (tape : nat -> Sample) (n : Z) :
  1 <= n ->
  (forall i : nat, provider_text_nonempty (tape i)) ->
  length (create_data tape n) = Z.to_nat n /\
  Forall (fun r => keys r = field_names /\
                   length r = 15%nat /\
                   Forall (fun kv => populated (snd kv)) r)
         (create_data tape n).
Proof.
  intros _ Hprov. split; [apply create_data_length |].
  unfold create_data. apply Forall_map, Forall_forall. intros i _.
  destruct (generate_record_populated (tape i) (Hprov i)) as [Hk Hp].
  split; [exact Hk |]. split; [reflexivity | exact Hp].
Qed.

Lemma create_data_gives_n_populated_records_witness :
  1 <= 2 /\
  (forall i : nat, provider_text_nonempty (Examples.tape0 i)) /\
  length (create_data Examples.tape0 2) = 2%nat /\
  Forall (fun r => keys r = field_names /\
                   length r = 15%nat /\
                   Forall (fun kv => populated (snd kv)) r)
         (create_data Examples.tape0 2).
Proof.
  assert (Hp : forall i : nat, provider_text_nonempty (Examples.tape0 i)).
  { intros i. unfold provider_text_nonempty. cbn. repeat split; discriminate. }
  split; [lia |]. split; [exact Hp |].
  apply (create_data_gives_n_populated_records Examples.tape0 2); [lia | exact Hp].
Defined.

End GeneratorFacts.

(** ** The tabular library: reading back what was written *)

Section PolarsFacts.
Import Text Calendar Polars.

Lemma length_rows_of (h : nat) (cols : list (list cell)) :
  length (rows_of h cols) = h.
Proof.
  revert cols. induction h as [| h IH]; intros cols; cbn; [reflexivity |].
  now rewrite IH.
Qed.

Lemma rows_of_width (h : nat) (cols : list (list cell)) :
  Forall (fun l => length l = length cols) (rows_of h cols).
Proof.
  revert cols. induction h as [| h IH]; intros cols; cbn [rows_of].
  - constructor.
  - constructor; [apply length_map |].
    specialize (IH (map (@tl cell) cols)). now rewrite length_map in IH.
Qed.

Lemma rows_of_first_column (h : nat) (vs : list cell) (cols : list (list cell)) :
  length vs = h ->
  map (fun l => to_cell (hd "" l)) (rows_of h (vs :: cols)) = map normalize_cell vs.
Proof.
  revert vs cols. induction h as [| h IH]; intros vs cols Hlen.
  - destruct vs; [reflexivity | discriminate].
  - destruct vs as [| v vs]; [discriminate |]. cbn in Hlen.
    cbn [rows_of map hd tl]. f_equal. apply IH. lia.
Qed.

Lemma rows_of_other_columns (h : nat) (vs : list cell) (cols : list (list cell)) :
  map (@tl string) (rows_of h (vs :: cols)) = rows_of h cols.
Proof.
  revert vs cols. induction h as [| h IH]; intros vs cols; [reflexivity |].
  cbn [rows_of map tl]. f_equal. apply IH.
Qed.

Lemma parse_rows_of (h : nat) (df : DataFrame) :
  Forall (fun s : Series => length (snd s) = h) df ->
  parse_columns (columns df) (rows_of h (map snd df)) = normalize df.
Proof.
  induction df as [| [n vs] df IH]; intros Hlen; [reflexivity |].
  apply Forall_cons in Hlen as [Hvs Hrest]. cbn [snd] in Hvs.
  cbn [columns map fst snd parse_columns normalize].
  rewrite rows_of_first_column by exact Hvs.
  rewrite rows_of_other_columns. f_equal. apply IH, Hrest.
Qed.

Lemma dedup_header_NoDup (seen hdr : list string) :
  NoDup hdr -> (forall x, x ∈ hdr -> x ∉ seen) -> dedup_header seen hdr = hdr.
Proof.
  revert seen. induction hdr as [| n hdr IH]; intros seen Hnd Hseen; [reflexivity |].
  apply NoDup_cons in Hnd as [Hn Hnd]. cbn [dedup_header].
  rewrite (proj1 (count_occ_not_In string_dec seen n)).
  - f_equal. apply IH; [exact Hnd |].
    intros x Hx [-> | Hin]%elem_of_cons; [contradiction |].
    apply (Hseen x); [now right | exact Hin].
  - intros Hin. apply (Hseen n); [now left |]. now apply list_elem_of_In.
Qed.

Lemma columns_parse_columns (names : list string) (lines : file) :
  columns (parse_columns names lines) = names.
Proof.
  revert lines. induction names as [| n names IH]; intros lines; [reflexivity |].
  cbn. f_equal. apply IH.
Qed.

Lemma parse_columns_lengths (names : list string) (lines : file) :
  Forall (fun s : Series => length (snd s) = length lines) (parse_columns names lines).
Proof.
  revert lines. induction names as [| n names IH]; intros lines; cbn [parse_columns].
  - constructor.
  - constructor; [cbn; apply length_map |].
    specialize (IH (map (@tl string) lines)). now rewrite length_map in IH.
Qed.

Lemma normalize_to_cell (s : string) : normalize_cell (to_cell s) = to_cell s.
Proof. destruct s; reflexivity. Qed.

Lemma normalize_parse_columns (names : list string) (lines : file) :
  normalize (parse_columns names lines) = parse_columns names lines.
Proof.
  revert lines. induction names as [| n names IH]; intros lines; [reflexivity |].
  cbn [parse_columns normalize map fst snd]. f_equal; [| apply IH].
  f_equal. rewrite map_map. apply map_ext. intros l. apply normalize_to_cell.
Qed.

Lemma height_uniform (h : nat) (df : DataFrame) :
  df <> [] -> Forall (fun s : Series => length (snd s) = h) df -> height df = h.
Proof.
  destruct df as [| [n vs] df]; [congruence |]. intros _ H.
  apply Forall_cons in H as [H _]. exact H.
Qed.

Lemma wf_uniform (h : nat) (df : DataFrame) :
  NoDup (columns df) ->
  Forall (fun s : Series => length (snd s) = h) df -> wf df.
Proof.
  intros Hnd Hlen. split; [exact Hnd |].
  destruct df as [| s df]; [constructor |].
  rewrite (height_uniform h) by (congruence || exact Hlen). exact Hlen.
Qed.

(** A frame that was loaded is well formed and holds no empty text. *)
Lemma read_csv_Ok (path : string) (fs fs' : FS) (df : DataFrame) :
  read_csv path fs = (Ok df, fs') ->
  fs' = fs /\ wf df /\ normalize df = df /\
  exists hdr lines, fs !! path = Some (hdr :: lines) /\
    (df <> [] -> height df = length lines).
Proof.
  unfold read_csv. destruct (fs !! path) as [[| hdr lines] |]; try discriminate.
  destruct (negb _); [discriminate |].
  destruct (bool_decide _) eqn:Hnd; [| discriminate].
  intros [= <- <-]. apply bool_decide_eq_true in Hnd.
  pose proof (parse_columns_lengths (dedup_header [] hdr) lines) as Hlen.
  split; [reflexivity |]. split; [| split].
  - apply (wf_uniform (length lines)); [| exact Hlen].
    now rewrite columns_parse_columns.
  - apply normalize_parse_columns.
  - exists hdr, lines. split; [reflexivity |]. intros Hne.
    now apply height_uniform.
Qed.

Lemma read_csv_fs (path : string) (fs : FS) : snd (read_csv path fs) = fs.
Proof.
  unfold read_csv. destruct (fs !! path) as [[| hdr lines] |]; try reflexivity.
  destruct (negb _); [reflexivity |]. destruct (bool_decide _); reflexivity.
Qed.

(** Loading the file that [write_csv] wrote gives the frame back. *)
Lemma read_csv_to_lines (path : string) (fs : FS) (df : DataFrame) :
  wf df ->
  read_csv path (<[path := to_lines df]> fs)
  = (Ok (normalize df), <[path := to_lines df]> fs).
Proof.
  intros [Hnd Hlen]. unfold read_csv. rewrite lookup_insert_eq. unfold to_lines.
  rewrite dedup_header_NoDup by (exact Hnd || (intros x _; apply not_elem_of_nil)).
  replace (forallb _ _) with true.
  - cbn [negb]. rewrite bool_decide_eq_true_2 by exact Hnd.
    now rewrite parse_rows_of by exact Hlen.
  - symmetry. apply forallb_forall. intros l Hl.
    pose proof (rows_of_width (height df) (map snd df)) as Hw.
    rewrite Forall_forall in Hw. apply list_elem_of_In, Hw in Hl.
    unfold columns. rewrite Hl, !length_map. apply Nat.leb_refl.
Qed.

End PolarsFacts.

(** ** Columns: lookup, replacement and append *)

Section ColumnFacts.
Import Text Calendar Polars.

Lemma get_column_None (n : string) (df : DataFrame) :
  get_column n df = None <-> n ∉ columns df.
Proof.
  induction df as [| [m vs] df IH]; cbn [get_column columns map fst].
  - split; [intros _; apply not_elem_of_nil | reflexivity].
  - rewrite not_elem_of_cons. destruct (String.eqb_spec n m) as [-> | Hne].
    + split; [discriminate | intros [[] _]; reflexivity].
    + rewrite IH. tauto.
Qed.

Lemma get_column_length (n : string) (df : DataFrame) (vs : list cell) :
  wf df -> get_column n df = Some vs -> length vs = height df.
Proof.
  intros [_ Hlen]. generalize (height df) Hlen. clear Hlen. intros h Hlen.
  induction df as [| [m ws] df IH]; cbn [get_column]; [discriminate |].
  apply Forall_cons in Hlen as [Hm Hlen].
  destruct (String.eqb n m); [intros [= <-]; exact Hm | now apply IH].
Qed.

Lemma get_column_normalize (n : string) (df : DataFrame) :
  get_column n (normalize df) = option_map (map normalize_cell) (get_column n df).
Proof.
  induction df as [| [m ws] df IH]; [reflexivity |].
  cbn [normalize map fst snd get_column].
  destruct (String.eqb n m); [reflexivity | exact IH].
Qed.

Lemma get_column_app_l (n : string) (df df' : DataFrame) (vs : list cell) :
  get_column n df = Some vs -> get_column n (df ++ df') = Some vs.
Proof.
  induction df as [| [m ws] df IH]; cbn [get_column app]; [discriminate |].
  destruct (String.eqb n m); [trivial | exact IH].
Qed.

Lemma columns_replace_column (n : string) (vs : list cell) (df : DataFrame) :
  columns (replace_column (n, vs) df) = columns df.
Proof.
  induction df as [| [m ws] df IH]; [reflexivity |].
  cbn [replace_column fst]. destruct (String.eqb_spec n m) as [-> | _].
  - reflexivity.
  - unfold columns in *. cbn [map fst]. now rewrite IH.
Qed.

Lemma replace_column_lengths (h : nat) (n : string) (vs : list cell) (df : DataFrame) :
  length vs = h ->
  Forall (fun s : Series => length (snd s) = h) df ->
  Forall (fun s : Series => length (snd s) = h) (replace_column (n, vs) df).
Proof.
  intros Hvs. induction df as [| [m ws] df IH]; intros Hlen; [constructor |].
  apply Forall_cons in Hlen as [Hm Hlen]. cbn [replace_column fst].
  destruct (String.eqb n m); constructor; auto.
Qed.

Lemma get_column_replace_column (n : string) (vs : list cell) (df : DataFrame) :
  get_column n df <> None ->
  get_column n (replace_column (n, vs) df) = Some vs.
Proof.
  induction df as [| [m ws] df IH]; cbn [get_column replace_column fst]; [congruence |].
  destruct (String.eqb n m) eqn:E; cbn [get_column].
  - now rewrite String.eqb_refl.
  - rewrite E. exact IH.
Qed.

Lemma replace_column_same (n : string) (vs : list cell) (df : DataFrame) :
  get_column n df = Some vs -> replace_column (n, vs) df = df.
Proof.
  induction df as [| [m ws] df IH]; cbn [get_column replace_column fst]; [reflexivity |].
  destruct (String.eqb_spec n m) as [-> | _].
  - now intros [= ->].
  - intros H. now rewrite IH.
Qed.

Lemma height_replace_column (n : string) (vs : list cell) (df : DataFrame) :
  length vs = height df -> height (replace_column (n, vs) df) = height df.
Proof.
  destruct df as [| [m ws] df]; [reflexivity |]. cbn [replace_column fst].
  destruct (String.eqb n m); [trivial | reflexivity].
Qed.

Lemma with_columns_replace (df : DataFrame) (n : string) (old vs : list cell) :
  get_column n df = Some old -> length vs = height df ->
  with_columns df (n, vs) = Ok (replace_column (n, vs) df).
Proof.
  intros Hget Hlen. unfold with_columns. destruct df as [| s df]; [discriminate |].
  cbn [fst snd]. rewrite Hlen, Nat.eqb_refl, Hget. reflexivity.
Qed.

Lemma with_columns_append (df : DataFrame) (n : string) (vs : list cell) :
  get_column n df = None -> length vs = height df ->
  with_columns df (n, vs) = Ok (df ++ [(n, vs)]).
Proof.
  intros Hget Hlen. unfold with_columns. destruct df as [| s df]; [reflexivity |].
  cbn [fst snd]. rewrite Hlen, Nat.eqb_refl, Hget. reflexivity.
Qed.

Lemma wf_replace_column (n : string) (vs : list cell) (df : DataFrame) :
  wf df -> length vs = height df -> wf (replace_column (n, vs) df).
Proof.
  intros [Hnd Hlen] Hvs. apply (wf_uniform (height df)).
  - now rewrite columns_replace_column.
  - now apply replace_column_lengths.
Qed.

Lemma wf_append (n : string) (vs : list cell) (df : DataFrame) :
  wf df -> get_column n df = None -> length vs = height df ->
  wf (df ++ [(n, vs)]).
Proof.
  intros [Hnd Hlen] Hn Hvs. apply (wf_uniform (height df)).
  - unfold columns. rewrite map_app. cbn [map fst].
    apply NoDup_app. split; [exact Hnd |]. split.
    + intros x Hx ->%list_elem_of_singleton. now apply get_column_None in Hn.
    + apply NoDup_singleton.
  - apply Forall_app. split; [exact Hlen |]. constructor; [exact Hvs | constructor].
Qed.

Lemma height_append (n : string) (vs : list cell) (df : DataFrame) :
  length vs = height df -> height (df ++ [(n, vs)]) = height df.
Proof. destruct df as [| [m ws] df]; [trivial | reflexivity]. Qed.

Lemma normalize_app (df df' : DataFrame) :
  normalize (df ++ df') = normalize df ++ normalize df'.
Proof. apply map_app. Qed.

Lemma length_to_lines (df : DataFrame) :
  length (to_lines df) = S (height df).
Proof. unfold to_lines. cbn. now rewrite length_rows_of. Qed.

(** *** The strict conversion of a column *)

Lemma str_to_datetime_Ok (fmt : string) (vs : list cell) (ds : list (option datetime)) :
  str_to_datetime fmt vs = Ok ds ->
  Forall2 (fun c d => match c with
                      | Some s => strptime fmt s = d /\ d <> None
                      | None => d = None
                      end) vs ds.
Proof.
  revert ds. induction vs as [| [s |] vs IH]; intros ds; cbn [str_to_datetime].
  - intros [= <-]. constructor.
  - destruct (strptime fmt s) as [d |] eqn:Hs; [| discriminate].
    destruct (str_to_datetime fmt vs) as [ds' |]; [| discriminate].
    intros [= <-]. constructor; [| now apply IH]. now rewrite Hs.
  - destruct (str_to_datetime fmt vs) as [ds' |]; [| discriminate].
    intros [= <-]. constructor; [reflexivity | now apply IH].
Qed.

Lemma str_to_datetime_Raise (fmt : string) (vs : list cell) (e : exn) :
  str_to_datetime fmt vs = Raise e ->
  e = ParseError /\ exists s, Some s ∈ vs /\ strptime fmt s = None.
Proof.
  induction vs as [| [s |] vs IH]; cbn [str_to_datetime]; [discriminate | |].
  - destruct (strptime fmt s) as [d |] eqn:Hs.
    + destruct (str_to_datetime fmt vs) as [ds' |]; [discriminate |].
      intros [= <-]. destruct (IH eq_refl) as [-> (s' & Hin & Hs')].
      split; [reflexivity |]. exists s'. split; [now right | exact Hs'].
    + intros [= <-]. split; [reflexivity |]. exists s. split; [now left | exact Hs].
  - destruct (str_to_datetime fmt vs) as [ds' |]; [discriminate |].
    intros [= <-]. destruct (IH eq_refl) as [-> (s' & Hin & Hs')].
    split; [reflexivity |]. exists s'. split; [now right | exact Hs'].
Qed.

Lemma str_to_datetime_fails (fmt : string) (vs : list cell) (s : string) :
  Some s ∈ vs -> strptime fmt s = None ->
  str_to_datetime fmt vs = Raise ParseError.
Proof.
  intros Hin Hs. induction vs as [| c vs IH]; [now apply elem_of_nil in Hin |].
  apply elem_of_cons in Hin as [<- | Hin]; cbn [str_to_datetime].
  - now rewrite Hs.
  - rewrite (IH Hin). destruct c as [s' |]; [| reflexivity].
    destruct (strptime fmt s'); reflexivity.
Qed.

(** After a successful conversion, formatting with the trailing [Z]
    appends the letter to every value and keeps the nulls. *)
Lemma strftime_after_strptime (vs : list cell) (ds : list (option datetime)) :
  str_to_datetime "%Y-%m-%dT%H:%M:%S" vs = Ok ds ->
  dt_strftime "%Y-%m-%dT%H:%M:%SZ" ds
  = map (option_map (fun s => s +:+ "Z")) vs.
Proof.
  intros H. apply str_to_datetime_Ok in H. unfold dt_strftime.
  induction H as [| c d vs ds Hcd _ IH]; [reflexivity |].
  cbn [map]. rewrite IH. f_equal.
  destruct c as [s |]; [| now subst d].
  destruct Hcd as [Hs Hd]. destruct d as [d |]; [| congruence].
  apply strptime_sound in Hs as [_ ->]. cbn [option_map].
  now rewrite strftime_output.
Qed.

Lemma str_to_datetime_length (fmt : string) (vs : list cell) (ds : list (option datetime)) :
  str_to_datetime fmt vs = Ok ds -> length ds = length vs.
Proof. intros H. apply str_to_datetime_Ok in H. symmetry. eapply Forall2_length, H. Qed.

End ColumnFacts.

(** ** The two patching passes *)

Section PatcherFacts.
Import Text Calendar Polars Batch Spec Pattern.

(** The outcome of [update_datetime], case by case. *)
Lemma update_datetime_cases (path : string) (fs : FS) :
  match read_csv path fs with
  | (Raise e, _) => update_datetime path fs = (Raise e, fs)
  | (Ok df, _) =>
      match get_column "accessed_at" df with
      | None => update_datetime path fs = (Raise ColumnNotFoundError, fs)
      | Some vs =>
          match str_to_datetime "%Y-%m-%dT%H:%M:%S" vs with
          | Raise e => update_datetime path fs = (Raise e, fs)
          | Ok ds =>
              update_datetime path fs =
              (Ok tt, <[path := to_lines
                         (replace_column
                            ("accessed_at", map (option_map (fun s => s +:+ "Z")) vs)
                            df)]> fs)
          end
      end
  end.
Proof.
  unfold update_datetime, bind, lift, write_csv.
  pose proof (read_csv_fs path fs) as Hfs.
  destruct (read_csv path fs) as [[df | e] fs'] eqn:Hread; cbn [snd] in Hfs; subst fs';
    [| reflexivity].
  destruct (get_column "accessed_at" df) as [vs |] eqn:Hget; [| reflexivity].
  destruct (str_to_datetime _ vs) as [ds | e] eqn:Hconv; [| reflexivity].
  apply read_csv_Ok in Hread as (_ & Hwf & _).
  rewrite (strftime_after_strptime vs ds Hconv).
  erewrite with_columns_replace; [reflexivity | exact Hget |].
  rewrite length_map. now apply (get_column_length "accessed_at").
Qed.

(** The outcome of [add_id], case by case. *)
Lemma add_id_cases (w : World) (path : string) (fs : FS) :
  match read_csv path fs with
  | (Raise e, _) => add_id w path fs = (Raise e, fs)
  | (Ok df, _) =>
      let ids := map Some (map (uuid4 w) (seq 0 (height df))) in
      add_id w path fs =
      (Ok tt, <[path := to_lines
                 (match get_column "unique_id" df with
                  | Some _ => replace_column ("unique_id", ids) df
                  | None => df ++ [("unique_id", ids)]
                  end)]> fs)
  end.
Proof.
  unfold add_id, bind, lift, write_csv.
  pose proof (read_csv_fs path fs) as Hfs.
  destruct (read_csv path fs) as [[df | e] fs'] eqn:Hread; cbn [snd] in Hfs; subst fs';
    [| reflexivity].
  cbv zeta.
  assert (Hlen : length (map Some (map (uuid4 w) (seq 0 (height df)))) = height df)
    by now rewrite !length_map, length_seq.
  destruct (get_column "unique_id" df) as [old |] eqn:Hget.
  - now erewrite with_columns_replace by eassumption.
  - now rewrite with_columns_append.
Qed.

Lemma update_datetime_raise_keeps_fs (path : string) (fs fs' : FS) (e : exn) :
  update_datetime path fs = (Raise e, fs') -> fs' = fs.
Proof.
  pose proof (update_datetime_cases path fs) as H.
  destruct (read_csv path fs) as [[df | e'] fs0].
  - destruct (get_column "accessed_at" df) as [vs |].
    + destruct (str_to_datetime _ vs); rewrite H; [discriminate | now intros [= _ <-]].
    + rewrite H. now intros [= _ <-].
  - rewrite H. now intros [= _ <-].
Qed.

(** C8. If [update_datetime] raises a parse error, the file system is
    exactly the one [add_id] produced: nothing was rewritten, nothing
    was rolled back. *)
Theorem update_datetime_parse_error_leaves_file (w : World) (path : string)
    (fs0 fs1 fs2 : FS) :
  add_id w path fs0 = (Ok tt, fs1) ->
  update_datetime path fs1 = (Raise ParseError, fs2) ->
  fs2 = fs1 /\ fs2 !! path = fs1 !! path.
Proof.
  intros _ H. apply update_datetime_raise_keeps_fs in H. now subst fs2.
Qed.

Lemma update_datetime_parse_error_leaves_file_witness :
  snd (update_datetime Examples.path0
         (snd (add_id Examples.world0 Examples.path0 Examples.fs_not_a_date)))
  = snd (add_id Examples.world0 Examples.path0 Examples.fs_not_a_date).
Proof.
  apply (update_datetime_parse_error_leaves_file Examples.world0 Examples.path0
           Examples.fs_not_a_date); vm_compute; reflexivity.
Defined.

Lemma to_cell_nonempty (s : string) : s <> "" -> to_cell s = Some s.
Proof. destruct s; [congruence | reflexivity]. Qed.

Lemma normalize_cell_Z (c : cell) :
  normalize_cell (option_map (fun s => s +:+ "Z") c) = option_map (fun s => s +:+ "Z") c.
Proof.
  destruct c as [s |]; [| reflexivity]. unfold normalize_cell. cbn [option_map from_cell].
  apply to_cell_nonempty, append_cons_nonempty.
Qed.

Lemma normalize_replace_column (n : string) (vs : list cell) (df : DataFrame) :
  normalize (replace_column (n, vs) df)
  = replace_column (n, map normalize_cell vs) (normalize df).
Proof.
  induction df as [| [m ws] df IH]; [reflexivity |].
  cbn [replace_column normalize map fst snd].
  destruct (String.eqb n m); cbn [map fst snd]; [reflexivity |].
  f_equal. exact IH.
Qed.

Lemma accessed_at_values_Some (fs : FS) (path : string) (vs : list cell) :
  accessed_at_values fs path = Some vs <->
  exists df, read_csv path fs = (Ok df, fs) /\ get_column "accessed_at" df = Some vs.
Proof.
  unfold accessed_at_values. pose proof (read_csv_fs path fs) as Hfs.
  destruct (read_csv path fs) as [[df | e] fs0]; cbn [snd] in Hfs; subst fs0.
  - split; [intros H; now exists df | now intros (df' & [= <-] & H)].
  - split; [discriminate | now intros (df' & [=] & _)].
Qed.

(** A successful run, unfolded: the frame that was loaded, its
    [accessed_at] column, and the frame that the rewritten file holds. *)
Lemma update_datetime_Ok (path : string) (fs fs' : FS) :
  update_datetime path fs = (Ok tt, fs') ->
  exists df vs ds,
    read_csv path fs = (Ok df, fs) /\
    get_column "accessed_at" df = Some vs /\
    str_to_datetime "%Y-%m-%dT%H:%M:%S" vs = Ok ds /\
    let df1 := replace_column
                 ("accessed_at", map (option_map (fun s => s +:+ "Z")) vs) df in
    fs' = <[path := to_lines df1]> fs /\
    wf df1 /\
    read_csv path fs' = (Ok df1, fs').
Proof.
  intros Hrun. pose proof (update_datetime_cases path fs) as H.
  pose proof (read_csv_fs path fs) as Hfs.
  destruct (read_csv path fs) as [[df | e] fs0] eqn:Hread; cbn [snd] in Hfs; subst fs0;
    [| congruence].
  destruct (get_column "accessed_at" df) as [vs |] eqn:Hget; [| congruence].
  destruct (str_to_datetime _ vs) as [ds | e] eqn:Hconv; [| congruence].
  rewrite H in Hrun. injection Hrun as <-.
  exists df, vs, ds.
  do 3 (split; [first [reflexivity | assumption] |]). cbv zeta.
  apply read_csv_Ok in Hread as (_ & Hwf & Hnorm & _).
  assert (Hlen : length (map (option_map (fun s => s +:+ "Z")) vs) = height df).
  { rewrite length_map. now apply (get_column_length "accessed_at"). }
  pose proof (wf_replace_column "accessed_at" _ df Hwf Hlen) as Hwf1.
  split; [reflexivity |]. split; [exact Hwf1 |].
  rewrite read_csv_to_lines by exact Hwf1. f_equal. f_equal.
  rewrite normalize_replace_column, Hnorm. f_equal. f_equal.
  rewrite map_map. apply map_ext. intros c. apply normalize_cell_Z.
Qed.







Lemma matches_nil_inv (p : list cclass) : matches p "" = true -> p = [].
Proof. destruct p as [| [] p]; [reflexivity | discriminate | discriminate]. Qed.

(** A text that matches ends in a character of the last class. *)
Lemma matches_snoc (p : list cclass) (s : string) (c : ascii) :
  matches p (s +:+ String c "") = true ->
  exists p' cl, p = p' ++ [cl] /\ matches [cl] (String c "") = true.
Proof.
  revert s. induction p as [| cl p IH]; intros s H.
  - destruct s; discriminate H.
  - destruct s as [| a s].
    + cbn [String.append] in H. exists [], cl.
      assert (p = []) as ->.
      { apply matches_nil_inv. destruct cl; cbn [matches] in H;
          apply andb_true_iff in H as [_ H]; exact H. }
      split; [reflexivity | exact H].
    + cbn [String.append] in H.
      assert (Hp : matches p (s +:+ String c "") = true).
      { destruct cl; cbn [matches] in H; apply andb_true_iff in H as [_ H]; exact H. }
      destruct (IH s Hp) as (p' & cl' & -> & Hc).
      exists (cl :: p'), cl'. split; [reflexivity | exact Hc].
Qed.

(** A value that ends in Z is not accepted by the input format. *)
Lemma strptime_Z (s : string) : strptime "%Y-%m-%dT%H:%M:%S" (s +:+ "Z") = None.
Proof.
  destruct (strptime _ (s +:+ "Z")) as [d |] eqn:Hs; [| reflexivity]. exfalso.
  apply strptime_sound in Hs as [_ Hs].
  pose proof (isoformat_matches_input d) as Hm. rewrite <- Hs in Hm.
  apply matches_snoc in Hm as (p' & cl & Hp & Hc).
  assert (cl = Digit) as ->.
  { apply (f_equal (fun l => List.last l Digit)) in Hp.
    rewrite last_last in Hp. symmetry. exact Hp. }
  discriminate Hc.
Qed.

(** C9. Running [update_datetime] again on the file that a successful
    run produced has one of two outcomes, fixed by the file: every
    value now ends in Z and is refused by the input format, so the run
    fails with a parse error as soon as the column holds one value, and
    leaves the file as it is; with no value at all in the column the
    run completes and rewrites the file unchanged. *)
Theorem update_datetime_twice (path : string) (fs fs1 : FS) :
  update_datetime path fs = (Ok tt, fs1) ->
  exists vs1,
    accessed_at_values fs1 path = Some vs1 /\
    Forall (fun c => forall s, c = Some s -> ends_with "Z" s) vs1 /\
    (update_datetime path fs1 = (Raise ParseError, fs1) \/
     update_datetime path fs1 = (Ok tt, fs1)) /\
    ((exists s, Some s ∈ vs1) -> update_datetime path fs1 = (Raise ParseError, fs1)) /\
    ((forall c, c ∈ vs1 -> c = None) -> update_datetime path fs1 = (Ok tt, fs1)).
Proof.
  intros Hrun.
  apply update_datetime_Ok in Hrun as (df & vs & ds & Hread & Hget & Hconv & Hrest).
  cbv zeta in Hrest. destruct Hrest as (Hfs1 & Hwf1 & Hread1).
  set (vs1 := map (option_map (fun s => s +:+ "Z")) vs) in *.
  set (df1 := replace_column ("accessed_at", vs1) df) in *.
  assert (Hget1 : get_column "accessed_at" df1 = Some vs1)
    by (apply get_column_replace_column; congruence).
  pose proof (update_datetime_cases path fs1) as H. rewrite Hread1, Hget1 in H.
  assert (Hends : Forall (fun c => forall s, c = Some s -> ends_with "Z" s) vs1).
  { apply Forall_forall. intros c Hc s ->. unfold vs1 in Hc.
    apply list_elem_of_fmap in Hc as ([s0 |] & Heq & _); [| discriminate].
    injection Heq as ->. now exists s0. }
  assert (Hfail : (exists s, Some s ∈ vs1) ->
                  update_datetime path fs1 = (Raise ParseError, fs1)).
  { intros [s Hin]. rewrite Forall_forall in Hends.
    destruct (Hends _ Hin s eq_refl) as [s0 ->].
    now rewrite (str_to_datetime_fails _ vs1 _ Hin (strptime_Z s0)) in H. }
  assert (Hnoop : (forall c, c ∈ vs1 -> c = None) ->
                  update_datetime path fs1 = (Ok tt, fs1)).
  { intros Hnull.
    assert (Hc : str_to_datetime "%Y-%m-%dT%H:%M:%S" vs1 = Ok (map (fun _ => None) vs1)).
    { clear -Hnull. induction vs1 as [| c l IH]; [reflexivity |].
      rewrite (Hnull c) by now left. cbn [str_to_datetime map].
      rewrite IH; [reflexivity |]. intros c' Hc'. apply Hnull. now right. }
    rewrite Hc in H. rewrite H. f_equal.
    assert (Hsame : map (option_map (fun s => s +:+ "Z")) vs1 = vs1).
    { clear -Hnull. induction vs1 as [| c l IH]; [reflexivity |].
      cbn [map]. rewrite IH by (intros c' Hc'; apply Hnull; now right).
      now rewrite (Hnull c) by now left. }
    rewrite Hsame. transitivity (<[path := to_lines df1]> fs1).
    - do 2 f_equal. exact (replace_column_same _ _ _ Hget1).
    - rewrite Hfs1. apply insert_insert_eq. }
  exists vs1. split; [apply accessed_at_values_Some; now exists df1 |].
  split; [exact Hends |]. split; [| split; [exact Hfail | exact Hnoop]].
  destruct (str_to_datetime "%Y-%m-%dT%H:%M:%S" vs1) as [ds1 | e] eqn:Hc.
  - right. apply Hnoop. intros [s |] Hin; [| reflexivity].
    exfalso. rewrite Forall_forall in Hends.
    destruct (Hends _ Hin s eq_refl) as [s0 ->].
    rewrite (str_to_datetime_fails _ vs1 _ Hin (strptime_Z s0)) in Hc. discriminate Hc.
  - left. apply str_to_datetime_Raise in Hc as [-> _]. exact H.
Qed.

Lemma update_datetime_twice_witness :
  exists vs1,
    accessed_at_values Examples.fs_normalized Examples.path0 = Some vs1 /\
    Forall (fun c => forall s, c = Some s -> ends_with "Z" s) vs1 /\
    (update_datetime Examples.path0 Examples.fs_normalized
       = (Raise ParseError, Examples.fs_normalized) \/
     update_datetime Examples.path0 Examples.fs_normalized
       = (Ok tt, Examples.fs_normalized)) /\
    ((exists s, Some s ∈ vs1) ->
     update_datetime Examples.path0 Examples.fs_normalized
       = (Raise ParseError, Examples.fs_normalized)) /\
    ((forall c, c ∈ vs1 -> c = None) ->
     update_datetime Examples.path0 Examples.fs_normalized
       = (Ok tt, Examples.fs_normalized)).
Proof.
  apply (update_datetime_twice Examples.path0 Examples.fs_written).
  vm_compute. reflexivity.
Defined.

End PatcherFacts.

(** ** [add_id] *)

Section AddIdFacts.
Import Text Calendar Py Polars Batch Spec.

Lemma height_normalize (df : DataFrame) : height (normalize df) = height df.
Proof. destruct df as [| [n vs] df]; [reflexivity |]. cbn. apply length_map. Qed.

Lemma data_rows_to_lines (path : string) (fs : FS) (df : DataFrame) :
  data_rows (<[path := to_lines df]> fs) path = Some (height df).
Proof.
  unfold data_rows. rewrite lookup_insert_eq. unfold to_lines.
  now rewrite length_rows_of.
Qed.

Lemma add_id_append_spec (w : World) (path : string) (fs : FS) (df : DataFrame) :
  read_csv path fs = (Ok df, fs) ->
  get_column "unique_id" df = None ->
  let ids := map (fun i => to_cell (uuid4 w i)) (seq 0 (height df)) in
  exists fs',
    add_id w path fs = (Ok tt, fs') /\
    (exists lines, fs' !! path = Some ((columns df ++ ["unique_id"]) :: lines) /\
                   length lines = height df) /\
    read_csv path fs' = (Ok (df ++ [("unique_id", ids)]), fs') /\
    (forall n vs, get_column n df = Some vs ->
                  get_column n (df ++ [("unique_id", ids)]) = Some vs) /\
    (forall p, p <> path -> fs' !! p = fs !! p).
Proof.
  intros Hread Hget. cbv zeta.
  pose proof (add_id_cases w path fs) as H. rewrite Hread, Hget in H. cbv zeta in H.
  apply read_csv_Ok in Hread as (_ & Hwf & Hnorm & _).
  set (raw := map Some (map (uuid4 w) (seq 0 (height df)))) in *.
  assert (Hlen : length raw = height df)
    by (unfold raw; now rewrite !length_map, length_seq).
  pose proof (wf_append "unique_id" raw df Hwf Hget Hlen) as Hwf'.
  eexists. split; [exact H |]. split; [| split; [| split]].
  - rewrite lookup_insert_eq. unfold to_lines. eexists. split.
    + f_equal. f_equal. unfold columns. now rewrite map_app.
    + now rewrite length_rows_of, height_append.
  - rewrite read_csv_to_lines by exact Hwf'. f_equal. f_equal.
    rewrite normalize_app, Hnorm. f_equal. cbn [normalize map fst snd].
    f_equal. f_equal. unfold raw. rewrite !map_map. reflexivity.
  - intros n vs Hn. now apply get_column_app_l.
  - intros p Hp. now rewrite lookup_insert_ne.
Qed.




End AddIdFacts.

(** ** The writer and the whole pipeline *)

Section PipelineFacts.
Import Text Calendar Py Polars Batch Spec.

(** C4, on the code. With an empty batch [write_to_csv] has already
    created the file when [records[0]] raises [IndexError]; nothing
    catches it, so [main] ends with that exception and leaves a file of
    zero bytes, without a header. *)
Theorem write_to_csv_empty_batch_raises (w : World) (out_dir : string)
    (fname : option string) (fs : FS) :
  let path := join_path out_dir
                (match fname with Some f => f | None => default_fname w end) in
  write_to_csv w [] out_dir fname fs = (Raise IndexError, <[path := []]> fs) /\
  create_data (tape w) 0 = [] /\
  main w 0 out_dir fs
    = (Raise IndexError, <[join_path out_dir (default_fname w) := []]> fs) /\
  data_rows (<[path := []]> fs) path = None.
Proof.
  cbv zeta. split; [reflexivity |]. split; [reflexivity |]. split; [reflexivity |].
  unfold data_rows. now rewrite lookup_insert_eq.
Qed.

Lemma dict_to_list_generated (s : Sample) :
  _dict_to_list field_names (generate_record s) = Ok (row_text s).
Proof. reflexivity. Qed.

Lemma writerows_generated (path : string) (samples : list Sample) (f0 : file) (fs : FS) :
  fs !! path = Some f0 ->
  writerows field_names path (map generate_record samples) fs
  = (Ok tt, <[path := f0 ++ map row_text samples]> fs).
Proof.
  revert f0 fs. induction samples as [| s samples IH]; intros f0 fs Hf0.
  - cbn. rewrite app_nil_r. now rewrite insert_id.
  - cbn [map writerows]. unfold bind at 1. unfold lift.
    rewrite dict_to_list_generated. unfold bind at 1. unfold write_line. rewrite Hf0.
    rewrite (IH (f0 ++ [row_text s])) by apply lookup_insert_eq.
    rewrite insert_insert_eq, <- app_assoc. reflexivity.
Qed.

Lemma write_to_csv_generated (w : World) (samples : list Sample) (out_dir : string)
    (fs : FS) :
  samples <> [] ->
  let path := join_path out_dir (default_fname w) in
  write_to_csv w (map generate_record samples) out_dir None fs
  = (Ok path, <[path := field_names :: map row_text samples]> fs).
Proof.
  intros Hne. cbv zeta. destruct samples as [| s samples]; [congruence |].
  unfold write_to_csv. cbn [map]. unfold bind at 1. unfold open_w.
  unfold bind at 1. unfold lift. unfold bind at 1. unfold write_line at 1.
  rewrite lookup_insert_eq. cbn [app]. rewrite insert_insert_eq.
  change (keys (generate_record s)) with field_names.
  unfold bind at 1.
  rewrite (writerows_generated _ (s :: samples) [field_names]) by apply lookup_insert_eq.
  rewrite insert_insert_eq. reflexivity.
Qed.

Lemma field_names_NoDup : NoDup field_names.
Proof. apply (bool_decide_unpack _). vm_compute. exact I. Qed.

Lemma length_row_text (s : Sample) : length (row_text s) = length field_names.
Proof. reflexivity. Qed.

(** The frame that polars loads from the file of a generated batch. *)
Lemma read_csv_generated (path : string) (fs : FS) (samples : list Sample) :
  read_csv path (<[path := field_names :: map row_text samples]> fs)
  = (Ok (parse_columns field_names (map row_text samples)),
     <[path := field_names :: map row_text samples]> fs).
Proof.
  unfold read_csv. rewrite lookup_insert_eq.
  rewrite dedup_header_NoDup
    by (apply field_names_NoDup || (intros x _; apply not_elem_of_nil)).
  replace (forallb _ _) with true.
  - cbn [negb]. now rewrite bool_decide_eq_true_2 by apply field_names_NoDup.
  - symmetry. apply forallb_forall. intros l Hl.
    apply in_map_iff in Hl as (s & <- & _). reflexivity.
Qed.

Lemma accessed_at_generated (samples : list Sample) :
  get_column "accessed_at" (parse_columns field_names (map row_text samples))
  = Some (map (fun s => Some (isoformat_datetime (fake_date_time_between s))) samples).
Proof.
  unfold field_names.
  cbn [parse_columns get_column String.eqb Ascii.eqb Bool.eqb].
  rewrite !map_map. reflexivity.
Qed.

Lemma unique_id_not_generated (samples : list Sample) :
  get_column "unique_id" (parse_columns field_names (map row_text samples)) = None.
Proof.
  apply get_column_None. rewrite columns_parse_columns.
  apply (bool_decide_unpack _). vm_compute. exact I.
Qed.

Lemma str_to_datetime_generated (samples : list Sample) :
  Forall (fun s => py_valid (fake_date_time_between s) = true) samples ->
  str_to_datetime "%Y-%m-%dT%H:%M:%S"
    (map (fun s => Some (isoformat_datetime (fake_date_time_between s))) samples)
  = Ok (map (fun s => Some (fake_date_time_between s)) samples).
Proof.
  induction 1 as [| s samples Hs _ IH]; [reflexivity |].
  cbn [map str_to_datetime]. unfold py_valid in Hs.
  apply andb_true_iff in Hs as [_ Hs].
  now rewrite strptime_isoformat, IH by exact Hs.
Qed.

Lemma height_generated (samples : list Sample) :
  height (parse_columns field_names (map row_text samples)) = length samples.
Proof.
  rewrite (height_uniform (length (map row_text samples))).
  - apply length_map.
  - discriminate.
  - apply parse_columns_lengths.
Qed.

Lemma pipeline_stages (w : World) (n : Z) (out_dir : string) (fs : FS) :
  1 <= n ->
  (forall i : nat, py_valid (fake_date_time_between (tape w i)) = true) ->
  let path := join_path out_dir (default_fname w) in
  exists fs1 fs2 fs3,
    write_to_csv w (create_data (tape w) n) out_dir None fs = (Ok path, fs1) /\
    data_rows fs1 path = Some (Z.to_nat n) /\
    add_id w path fs1 = (Ok tt, fs2) /\
    data_rows fs2 path = Some (Z.to_nat n) /\
    update_datetime path fs2 = (Ok tt, fs3) /\
    data_rows fs3 path = Some (Z.to_nat n) /\
    main w n out_dir fs = (Ok tt, fs3).
Proof.
  intros Hn Hvalid. cbv zeta.
  set (path := join_path out_dir (default_fname w)).
  set (samples := map (tape w) (seq 0 (Z.to_nat n))).
  assert (Hdata : create_data (tape w) n = map generate_record samples)
    by (unfold create_data, samples; now rewrite map_map).
  assert (Hlen : length samples = Z.to_nat n)
    by (unfold samples; now rewrite length_map, length_seq).
  assert (Hne : samples <> []) by (intros E; rewrite E in Hlen; cbn in Hlen; lia).
  assert (Hval : Forall (fun s => py_valid (fake_date_time_between s) = true) samples).
  { unfold samples. apply Forall_map, Forall_forall. intros i _. apply Hvalid. }
  (* stage 1 *)
  pose proof (write_to_csv_generated w samples out_dir fs Hne) as Hw. cbv zeta in Hw.
  fold path in Hw. rewrite <- Hdata in Hw.
  set (fs1 := <[path := field_names :: map row_text samples]> fs) in *.
  set (df1 := parse_columns field_names (map row_text samples)).
  pose proof (read_csv_generated path fs samples) as Hr1. fold fs1 df1 in Hr1.
  (* stage 2 *)
  destruct (add_id_append_spec w path fs1 df1 Hr1 (unique_id_not_generated samples))
    as (fs2 & Ha & (lines2 & Hl2 & Hrows2) & Hr2 & _ & _).
  set (df2 := df1 ++ [("unique_id", map (fun i => to_cell (uuid4 w i)) (seq 0 (height df1)))])
    in *.
  assert (Hh1 : height df1 = Z.to_nat n) by (unfold df1; now rewrite height_generated).
  (* stage 3 *)
  pose proof (update_datetime_cases path fs2) as Hu.
  rewrite Hr2 in Hu.
  unfold df2 in Hu at 1.
  rewrite (get_column_app_l "accessed_at" df1 _ _ (accessed_at_generated samples)) in Hu.
  rewrite (str_to_datetime_generated samples Hval) in Hu.
  exists fs1, fs2. eexists.
  split; [exact Hw |]. split.
  { unfold data_rows, fs1. rewrite lookup_insert_eq. now rewrite length_map, Hlen. }
  split; [exact Ha |]. split.
  { unfold data_rows. rewrite Hl2. now rewrite Hrows2, Hh1. }
  split; [exact Hu |]. split.
  { rewrite data_rows_to_lines, height_replace_column.
    - unfold df2. rewrite height_append by (now rewrite length_map, length_seq).
      now rewrite Hh1.
    - unfold df2. rewrite height_append by (now rewrite length_map, length_seq).
      now rewrite !length_map, Hh1, Hlen. }
  unfold main. unfold bind at 1. rewrite Hw. unfold bind at 1. rewrite Ha. exact Hu.
Qed.

(** C6. The number of data rows of the output file equals the number
    N of generated records after every stage. For N >= 1 each of the
    three stages completes and leaves a file of N data rows: after
    [write_to_csv], after [add_id] and after [update_datetime]. For
    N <= 0 no record is generated and no stage completes: the first one
    raises. *)
Theorem pipeline_row_count (w : World) (n : Z) (out_dir : string) (fs : FS) :
  (forall i : nat, py_valid (fake_date_time_between (tape w i)) = true) ->
  let path := join_path out_dir (default_fname w) in
  (1 <= n ->
   length (create_data (tape w) n) = Z.to_nat n /\
   exists fs1 fs2 fs3,
     write_to_csv w (create_data (tape w) n) out_dir None fs = (Ok path, fs1) /\
     data_rows fs1 path = Some (Z.to_nat n) /\
     add_id w path fs1 = (Ok tt, fs2) /\
     data_rows fs2 path = Some (Z.to_nat n) /\
     update_datetime path fs2 = (Ok tt, fs3) /\
     data_rows fs3 path = Some (Z.to_nat n) /\
     main w n out_dir fs = (Ok tt, fs3)) /\
  (n <= 0 ->
   create_data (tape w) n = [] /\
   exists fs1,
     write_to_csv w (create_data (tape w) n) out_dir None fs = (Raise IndexError, fs1) /\
     main w n out_dir fs = (Raise IndexError, fs1)).
Proof.
  intros Hvalid. cbv zeta. split.
  - intros Hn. split; [apply create_data_length |].
    exact (pipeline_stages w n out_dir fs Hn Hvalid).
  - intros Hn.
    assert (Hnil : create_data (tape w) n = []).
    { unfold create_data. replace (Z.to_nat n) with 0%nat by lia. reflexivity. }
    split; [exact Hnil |]. eexists. unfold main. rewrite Hnil. split; reflexivity.
Qed.

Lemma pipeline_row_count_witness :
  exists fs3,
    main Examples.world0 2 "out" ∅ = (Ok tt, fs3) /\
    data_rows fs3 (join_path "out" (default_fname Examples.world0)) = Some 2%nat.
Proof.
  destruct (pipeline_row_count Examples.world0 2 "out" ∅) as [Hpos _].
  - intros i. vm_compute. reflexivity.
  - destruct (Hpos ltac:(lia))
      as (_ & fs1 & fs2 & fs3 & _ & _ & _ & _ & _ & Hrows & Hmain).
    exists fs3. split; [exact Hmain | exact Hrows].
Defined.

End PipelineFacts.

(** * Further properties of the code *)

(** ** More on the record generator *)

Section GeneratorMore.
Import Text Calendar Py Spec Pattern Writer.




(** X2. The derived and the fixed-length numeric fields stay in their
    ranges: [consumed_traffic] lies between 56.25 and 225000, and
    [personal_number] is a number of exactly ten digits. *)
Theorem generated_numbers_in_range (s : Sample) :
  exists (x : Q) (p : Z),
    dict_get "consumed_traffic" (generate_record s) = Some (VFloat x) /\
    dict_get "personal_number" (generate_record s) = Some (VInt p) /\
    (5625 # 100 <= x)%Q /\ (x <= 225000 # 1)%Q /\
    1000000000 <= p <= 9999999999.
Proof.
  set (k := (download_speed_of s + upload_speed_of s) * session_duration_of s).
  exists (round (truediv k 8) 2), (random_number 10 (raw_random_number s)).
  split; [reflexivity |]. split; [reflexivity |].
  assert (Hk : 450 <= k <= 1800000).
  { unfold k, download_speed_of, upload_speed_of, session_duration_of.
    pose proof (rand_int_range 10 150 (raw_download_speed s) ltac:(lia)).
    pose proof (rand_int_range 5 100 (raw_upload_speed s) ltac:(lia)).
    pose proof (rand_int_range 30 7200 (raw_session_duration s) ltac:(lia)).
    nia. }
  pose proof (traffic_cents k) as [Hc _]. cbv zeta in Hc.
  assert (Hx : (round (truediv k 8) 2
                == round_half_even (truediv k 8 * inject_Z (10 ^ 2)) # 100)%Q).
  { unfold round. rewrite Qred_correct. change (inject_Z (10 ^ 2)) with (100 # 1).
    generalize (round_half_even (truediv k 8 * (100 # 1))). intros c.
    unfold Qeq, Qdiv, Qmult, Qinv, inject_Z. cbn. lia. }
  split; [| split].
  - rewrite Hx. unfold Qle. cbn. lia.
  - rewrite Hx. unfold Qle. cbn. lia.
  - unfold random_number. apply rand_int_range. reflexivity || lia.
Qed.

Lemma length_newlines_to_commas (s : string) :
  String.length (newlines_to_commas s) = (String.length s + count_char LF s)%nat.
Proof.
  induction s as [| c s IH]; [reflexivity |].
  cbn [newlines_to_commas count_char String.length].
  rewrite (Ascii.eqb_sym LF c).
  destruct (Ascii.eqb c LF); cbn [String.length]; rewrite IH; lia.
Qed.

Lemma newlines_to_commas_id (s : string) :
  contains_char LF s = false -> newlines_to_commas s = s.
Proof.
  induction s as [| c s IH]; [reflexivity |]. cbn [contains_char newlines_to_commas].
  rewrite (Ascii.eqb_sym LF c). intros H. apply orb_false_iff in H as [Hc Hs].
  rewrite Hc. f_equal. exact (IH Hs).
Qed.

(** X3. The stored address is one character longer than the provider's
    for every newline it had, and an address without a newline is
    stored unchanged. *)
Theorem generated_address_length (s : Sample) :
  exists a : string,
    dict_get "address" (generate_record s) = Some (VStr a) /\
    String.length a
      = (String.length (fake_address s) + count_char LF (fake_address s))%nat /\
    (contains_char LF (fake_address s) = false -> a = fake_address s).
Proof.
  exists (replace (String LF "") ", " (fake_address s)).
  split; [reflexivity |]. rewrite replace_newline.
  split; [apply length_newlines_to_commas | apply newlines_to_commas_id].
Qed.

End GeneratorMore.

(** ** More on [write_to_csv] *)

Section WriterMore.
Import Text Calendar Py Polars Batch Spec Pattern Writer.


Lemma dict_to_list_fits (fieldnames : list string) (r : record) :
  fits fieldnames r -> _dict_to_list fieldnames r = Ok (row_of fieldnames r).
Proof.
  intros Hfit. unfold _dict_to_list.
  replace (forallb _ (keys r)) with true; [reflexivity |].
  symmetry. apply forallb_forall. intros k Hk.
  apply bool_decide_eq_true. apply Hfit. now apply list_elem_of_In.
Qed.


Lemma fits_own_keys (r : record) : fits (keys r) r.
Proof. intros k Hk. exact Hk. Qed.

Lemma writerows_fits (fieldnames : list string) (path : string) (rows : list record)
    (f0 : file) (fs : FS) :
  Forall (fits fieldnames) rows ->
  fs !! path = Some f0 ->
  writerows fieldnames path rows fs
  = (Ok tt, <[path := f0 ++ map (row_of fieldnames) rows]> fs).
Proof.
  intros Hrows. revert f0 fs. induction Hrows as [| r rows Hr _ IH]; intros f0 fs Hf0.
  - cbn. rewrite app_nil_r. now rewrite insert_id.
  - cbn [map writerows]. unfold bind at 1. unfold lift.
    rewrite (dict_to_list_fits _ _ Hr). unfold bind at 1. unfold write_line. rewrite Hf0.
    rewrite (IH (f0 ++ [row_of fieldnames r])) by apply lookup_insert_eq.
    rewrite insert_insert_eq, <- app_assoc. reflexivity.
Qed.


Lemma write_to_csv_unfold (w : World) (r0 : record) (rs : list record)
    (out_dir : string) (fname : option string) (fs : FS) :
  write_to_csv w (r0 :: rs) out_dir fname fs
  = match writerows (keys r0) (csv_path_of w out_dir fname) (r0 :: rs)
            (<[csv_path_of w out_dir fname := [keys r0]]> fs) with
    | (Ok _, fs') => (Ok (csv_path_of w out_dir fname), fs')
    | (Raise e, fs') => (Raise e, fs')
    end.
Proof.
  unfold write_to_csv, csv_path_of. unfold bind at 1. unfold open_w.
  unfold bind at 1. unfold lift. unfold bind at 1. unfold write_line at 1.
  rewrite lookup_insert_eq. cbn [app]. rewrite insert_insert_eq.
  unfold bind at 1. destruct (writerows _ _ _ _) as [[[] | e] fs']; reflexivity.
Qed.







End WriterMore.

Section WriterFileFacts.
Import Text Calendar Py Polars Batch Spec Pattern Writer.

Lemma compile_fname_fmt :
  compile_fmt "%Y%m%d_%H%M%S" =
  [Numeric Year; Numeric Month; Numeric Day; Literal "_";
   Numeric Hour; Numeric Minute; Numeric Second].
Proof. reflexivity. Qed.

Lemma default_fname_matches (w : World) :
  matches fname_pattern (default_fname w) = true.
Proof.
  unfold default_fname, strftime. rewrite compile_fname_fmt.
  cbn [format_items width get String.append].
  change fname_pattern with
    ([Exactly "b"; Exactly "a"; Exactly "t"; Exactly "c"; Exactly "h"; Exactly "_"] ++
     repeat Digit 4 ++ repeat Digit 2 ++ repeat Digit 2 ++ Exactly "_" ::
     repeat Digit 2 ++ repeat Digit 2 ++ repeat Digit 2 ++
     [Exactly "."; Exactly "c"; Exactly "s"; Exactly "v"]).
  cbn [app matches Ascii.eqb Bool.eqb andb].
  repeat (rewrite ?append_assoc; rewrite matches_pad;
          cbn [String.append matches Ascii.eqb Bool.eqb andb]).
  reflexivity.
Qed.

(** X6. Without a file name [write_to_csv] writes to
    [out_dir/batch_<YYYYMMDD>_<HHMMSS>.csv], the digits being the date
    and the time of the clock. *)
Theorem write_to_csv_default_name (w : World) (r0 : record) (rs : list record)
    (out_dir : string) (fs : FS) :
  py_valid (now w) = true ->
  1000 <= year (now w) ->
  Forall (fits (keys r0)) rs ->
  exists fname fs',
    write_to_csv w (r0 :: rs) out_dir None fs = (Ok (out_dir +:+ "/" +:+ fname), fs') /\
    matches fname_pattern fname = true /\
    fname = "batch_" +:+ pad 4 (year (now w)) +:+ pad 2 (month (now w))
            +:+ pad 2 (day (now w)) +:+ "_" +:+ pad 2 (hour (now w))
            +:+ pad 2 (minute (now w)) +:+ pad 2 (second (now w)) +:+ ".csv".
Proof.
  intros _ _ Hrs. exists (default_fname w). eexists.
  split; [| split].
  - rewrite write_to_csv_unfold.
    rewrite (writerows_fits _ _ (r0 :: rs) [keys r0]);
      [| constructor; [apply fits_own_keys | exact Hrs] | apply lookup_insert_eq].
    reflexivity.
  - apply default_fname_matches.
  - unfold default_fname, strftime. rewrite compile_fname_fmt.
    cbn [format_items width get String.append]. rewrite !append_assoc.
    cbn [String.append]. now rewrite append_nil_r.
Qed.

Lemma write_to_csv_default_name_witness :
  exists fname fs',
    write_to_csv Examples.world0 [MoreExamples.rec_a] "out" None ∅
      = (Ok ("out" +:+ "/" +:+ fname), fs') /\
    matches fname_pattern fname = true /\
    fname = "batch_20250102_030405.csv".
Proof.
  destruct (write_to_csv_default_name Examples.world0 MoreExamples.rec_a [] "out" ∅)
    as (fname & fs' & Hrun & Hm & Hname).
  - vm_compute. reflexivity.
  - vm_compute. discriminate.
  - constructor.
  - exists fname, fs'. split; [exact Hrun |]. split; [exact Hm |].
    rewrite Hname. vm_compute. reflexivity.
Defined.










End WriterFileFacts.

(** ** More on the two patching passes *)

Section PatcherMore.
Import Text Calendar Py Polars Batch Spec Pattern Writer.

Lemma get_column_replace_column_ne (k n : string) (vs : list cell) (df : DataFrame) :
  k <> n -> get_column k (replace_column (n, vs) df) = get_column k df.
Proof.
  intros Hne. induction df as [| [m ws] df IH]; [reflexivity |].
  cbn [replace_column fst]. destruct (String.eqb_spec n m) as [-> | Hnm].
  - cbn [get_column]. destruct (String.eqb_spec k m); [congruence | reflexivity].
  - cbn [get_column]. now rewrite IH.
Qed.

Lemma get_column_app_ne (k n : string) (vs : list cell) (df : DataFrame) :
  k <> n -> get_column k (df ++ [(n, vs)]) = get_column k df.
Proof.
  intros Hne. induction df as [| [m ws] df IH]; cbn [app get_column].
  - destruct (String.eqb_spec k n); [congruence | reflexivity].
  - now rewrite IH.
Qed.



Lemma add_id_frame (w : World) (path : string) (fs : FS) (p : string) :
  p <> path -> snd (add_id w path fs) !! p = fs !! p.
Proof.
  intros Hp. pose proof (add_id_cases w path fs) as H.
  destruct (read_csv path fs) as [[df | e] fs0]; rewrite H; cbn [snd];
    [now rewrite lookup_insert_ne | reflexivity].
Qed.




(** X10. [add_id] on a path with no file raises [FileNotFoundError] and
    on a file of zero bytes [NoDataError]; whenever it raises, the file
    system is as it was, and it never touches a file other than the one
    at its path. *)
Theorem add_id_failures (w : World) (path : string) (fs : FS) :
  (fs !! path = None -> add_id w path fs = (Raise FileNotFoundError, fs)) /\
  (fs !! path = Some [] -> add_id w path fs = (Raise NoDataError, fs)) /\
  (forall e fs', add_id w path fs = (Raise e, fs') -> fs' = fs) /\
  (forall p, p <> path -> snd (add_id w path fs) !! p = fs !! p).
Proof.
  pose proof (add_id_cases w path fs) as H.
  split; [| split; [| split]].
  - intros Hnone. unfold read_csv in H. now rewrite Hnone in H.
  - intros Hnil. unfold read_csv in H. now rewrite Hnil in H.
  - intros e fs' Hrun. destruct (read_csv path fs) as [[df | e'] fs0];
      rewrite H in Hrun; [discriminate | now injection Hrun as _ <-].
  - intros p Hp. now apply add_id_frame.
Qed.



(** X12. [update_datetime] raises [FileNotFoundError] when there is no
    file at the path, [NoDataError] on a file of zero bytes and
    [ColumnNotFoundError] on a file without an [accessed_at] column;
    whenever it raises, the file system is as it was. *)
Theorem update_datetime_failures (path : string) (fs : FS) :
  (fs !! path = None -> update_datetime path fs = (Raise FileNotFoundError, fs)) /\
  (fs !! path = Some [] -> update_datetime path fs = (Raise NoDataError, fs)) /\
  (forall df, read_csv path fs = (Ok df, fs) -> "accessed_at" ∉ columns df ->
              update_datetime path fs = (Raise ColumnNotFoundError, fs)) /\
  (forall e fs', update_datetime path fs = (Raise e, fs') -> fs' = fs).
Proof.
  pose proof (update_datetime_cases path fs) as H.
  split; [| split; [| split]].
  - intros Hnone. unfold read_csv in H. now rewrite Hnone in H.
  - intros Hnil. unfold read_csv in H. now rewrite Hnil in H.
  - intros df Hread Hcol. rewrite Hread in H.
    apply get_column_None in Hcol. now rewrite Hcol in H.
  - intros e fs'. apply update_datetime_raise_keeps_fs.
Qed.

End PatcherMore.

(** ** The two passes in either order *)

Section OrderFacts.
Import Text Calendar Py Polars Batch Spec Pattern Writer.

Lemma rows_of_normalize (h : nat) (cols : list (list cell)) :
  rows_of h (map (map normalize_cell) cols) = rows_of h cols.
Proof.
  revert cols. induction h as [| h IH]; intros cols; [reflexivity |].
  cbn [rows_of]. f_equal.
  - rewrite map_map. apply map_ext. intros [| [[| a s] |] c]; reflexivity.
  - replace (map (@tl cell) (map (map normalize_cell) cols))
      with (map (map normalize_cell) (map (@tl cell) cols)); [apply IH |].
    rewrite !map_map. apply map_ext. intros [| c0 c]; reflexivity.
Qed.

Lemma to_lines_normalize (df : DataFrame) : to_lines (normalize df) = to_lines df.
Proof.
  unfold to_lines. rewrite height_normalize. f_equal.
  - unfold columns, normalize. rewrite map_map. reflexivity.
  - unfold normalize. rewrite map_map. cbn [snd].
    rewrite <- (rows_of_normalize (height df) (map snd df)).
    now rewrite map_map.
Qed.

Lemma normalized_column (n : string) (df : DataFrame) (vs : list cell) :
  normalize df = df -> get_column n df = Some vs -> map normalize_cell vs = vs.
Proof.
  intros Hnorm Hget. pose proof (get_column_normalize n df) as H.
  rewrite Hnorm, Hget in H. cbn in H. congruence.
Qed.

Lemma replace_column_app_l (n : string) (vs : list cell) (df df' : DataFrame) :
  get_column n df <> None ->
  replace_column (n, vs) (df ++ df') = replace_column (n, vs) df ++ df'.
Proof.
  induction df as [| [m ws] df IH]; cbn [get_column app replace_column fst];
    [congruence |].
  destruct (String.eqb n m); [reflexivity |]. intros H. now rewrite IH.
Qed.

Lemma replace_column_comm (n1 n2 : string) (v1 v2 : list cell) (df : DataFrame) :
  n1 <> n2 ->
  replace_column (n1, v1) (replace_column (n2, v2) df)
  = replace_column (n2, v2) (replace_column (n1, v1) df).
Proof.
  intros Hne. induction df as [| [m ws] df IH]; [reflexivity |].
  cbn [replace_column fst].
  destruct (String.eqb_spec n2 m) as [-> | H2]; destruct (String.eqb_spec n1 m) as [-> | H1];
    cbn [replace_column fst].
  - congruence.
  - rewrite String.eqb_refl. destruct (String.eqb_spec n1 m); [congruence | reflexivity].
  - rewrite String.eqb_refl. destruct (String.eqb_spec n2 m); [congruence | reflexivity].
  - destruct (String.eqb_spec n1 m); [congruence |].
    destruct (String.eqb_spec n2 m); [congruence |]. now rewrite IH.
Qed.

(** The frame [add_id] writes, from the frame it loaded. *)
Lemma add_id_frame_facts (w : World) (df : DataFrame) :
  wf df ->
  let U := map Some (map (uuid4 w) (seq 0 (height df))) in
  let dfA := match get_column "unique_id" df with
             | Some _ => replace_column ("unique_id", U) df
             | None => df ++ [("unique_id", U)]
             end in
  wf dfA /\ height dfA = height df /\
  get_column "accessed_at" dfA = get_column "accessed_at" df.
Proof.
  intros Hwf. cbv zeta.
  set (U := map Some (map (uuid4 w) (seq 0 (height df)))).
  assert (Hlen : length U = height df)
    by (unfold U; now rewrite !length_map, length_seq).
  destruct (get_column "unique_id" df) as [old |] eqn:Hget.
  - split; [now apply wf_replace_column |].
    split; [now apply height_replace_column |].
    now apply get_column_replace_column_ne.
  - split; [now apply wf_append |].
    split; [now apply height_append |].
    now apply get_column_app_ne.
Qed.

Lemma id_then_datetime_cases (w : World) (path : string) (fs : FS) (df : DataFrame) :
  read_csv path fs = (Ok df, fs) ->
  let U := map Some (map (uuid4 w) (seq 0 (height df))) in
  let dfA := match get_column "unique_id" df with
             | Some _ => replace_column ("unique_id", U) df
             | None => df ++ [("unique_id", U)]
             end in
  match get_column "accessed_at" df with
  | None => fst (id_then_datetime w path fs) = Raise ColumnNotFoundError
  | Some vs =>
      match str_to_datetime "%Y-%m-%dT%H:%M:%S" vs with
      | Raise e => fst (id_then_datetime w path fs) = Raise e
      | Ok _ =>
          id_then_datetime w path fs
          = (Ok tt, <[path := to_lines
                       (replace_column
                          ("accessed_at", map (option_map (fun s => s +:+ "Z")) vs)
                          dfA)]> fs)
      end
  end.
Proof.
  intros Hread. cbv zeta.
  pose proof (add_id_cases w path fs) as HA. rewrite Hread in HA. cbv zeta in HA.
  apply read_csv_Ok in Hread as (_ & Hwf & Hnorm & _).
  pose proof (add_id_frame_facts w df Hwf) as (HwfA & HhA & HaccA). cbv zeta in *.
  set (dfA := match get_column "unique_id" df with
              | Some _ => replace_column _ df
              | None => _
              end) in *.
  unfold id_then_datetime. unfold bind. rewrite HA.
  pose proof (update_datetime_cases path (<[path := to_lines dfA]> fs)) as HU.
  rewrite read_csv_to_lines in HU by exact HwfA.
  rewrite get_column_normalize, HaccA in HU.
  destruct (get_column "accessed_at" df) as [vs |] eqn:Hget; cbn [option_map] in HU;
    [| now rewrite HU].
  rewrite (normalized_column _ _ _ Hnorm Hget) in HU.
  destruct (str_to_datetime _ vs) as [ds | e]; [| now rewrite HU].
  rewrite HU, insert_insert_eq. do 2 f_equal.
  set (out := map (option_map (fun s => s +:+ "Z")) vs).
  assert (Hout : map normalize_cell out = out).
  { unfold out. rewrite map_map. apply map_ext. intros c. apply normalize_cell_Z. }
  rewrite <- Hout at 1. rewrite <- normalize_replace_column.
  apply to_lines_normalize.
Qed.

Lemma datetime_then_id_cases (w : World) (path : string) (fs : FS) (df : DataFrame) :
  read_csv path fs = (Ok df, fs) ->
  let U := map Some (map (uuid4 w) (seq 0 (height df))) in
  match get_column "accessed_at" df with
  | None => fst (datetime_then_id w path fs) = Raise ColumnNotFoundError
  | Some vs =>
      match str_to_datetime "%Y-%m-%dT%H:%M:%S" vs with
      | Raise e => fst (datetime_then_id w path fs) = Raise e
      | Ok _ =>
          let dfB := replace_column
                       ("accessed_at", map (option_map (fun s => s +:+ "Z")) vs) df in
          datetime_then_id w path fs
          = (Ok tt, <[path := to_lines
                       (match get_column "unique_id" df with
                        | Some _ => replace_column ("unique_id", U) dfB
                        | None => dfB ++ [("unique_id", U)]
                        end)]> fs)
      end
  end.
Proof.
  intros Hread. cbv zeta.
  pose proof (update_datetime_cases path fs) as HU. rewrite Hread in HU.
  unfold datetime_then_id. unfold bind.
  destruct (get_column "accessed_at" df) as [vs |] eqn:Hget; [| now rewrite HU].
  destruct (str_to_datetime _ vs) as [ds | e] eqn:Hconv; [| now rewrite HU].
  destruct (update_datetime_Ok path fs _ HU)
    as (df0 & vs0 & ds0 & Hread0 & Hget0 & _ & Hrest).
  rewrite Hread in Hread0. injection Hread0 as <-.
  rewrite Hget in Hget0. injection Hget0 as <-.
  cbv zeta in Hrest. destruct Hrest as (_ & HwfB & HreadB).
  rewrite HU.
  pose proof (add_id_cases w path (<[path := to_lines
     (replace_column ("accessed_at", map (option_map (fun s => s +:+ "Z")) vs) df)]> fs))
    as HA.
  rewrite HreadB in HA. cbv zeta in HA. rewrite HA, insert_insert_eq.
  apply read_csv_Ok in Hread as (_ & Hwf & _).
  rewrite height_replace_column
    by (rewrite length_map; now apply (get_column_length "accessed_at")).
  rewrite get_column_replace_column_ne by discriminate.
  reflexivity.
Qed.

(** X13. [add_id] and [update_datetime] commute: run in either order on
    the same file, they complete on the same files and leave the same
    file system. *)
Theorem add_id_update_datetime_commute (w : World) (path : string) (fs fs' : FS) :
  id_then_datetime w path fs = (Ok tt, fs') <->
  datetime_then_id w path fs = (Ok tt, fs').
Proof.
  pose proof (read_csv_fs path fs) as Hfs.
  destruct (read_csv path fs) as [[df | e] fs0] eqn:Hread; cbn [snd] in Hfs; subst fs0.
  - pose proof (id_then_datetime_cases w path fs df Hread) as HA.
    pose proof (datetime_then_id_cases w path fs df Hread) as HB. cbv zeta in HA, HB.
    destruct (get_column "accessed_at" df) as [vs |] eqn:Hget.
    + destruct (str_to_datetime _ vs) as [ds | e].
      * rewrite HA, HB.
        assert (Heq :
          replace_column ("accessed_at", map (option_map (fun s => s +:+ "Z")) vs)
            (match get_column "unique_id" df with
             | Some _ => replace_column
                           ("unique_id", map Some (map (uuid4 w) (seq 0 (height df)))) df
             | None => df ++ [("unique_id", map Some (map (uuid4 w) (seq 0 (height df))))]
             end)
          = match get_column "unique_id" df with
            | Some _ =>
                replace_column
                  ("unique_id", map Some (map (uuid4 w) (seq 0 (height df))))
                  (replace_column
                     ("accessed_at", map (option_map (fun s => s +:+ "Z")) vs) df)
            | None =>
                replace_column
                  ("accessed_at", map (option_map (fun s => s +:+ "Z")) vs) df
                ++ [("unique_id", map Some (map (uuid4 w) (seq 0 (height df))))]
            end).
        { destruct (get_column "unique_id" df).
          - apply replace_column_comm. discriminate.
          - apply replace_column_app_l. congruence. }
        rewrite Heq. reflexivity.
      * split; intros H; [rewrite H in HA | rewrite H in HB]; discriminate.
    + split; intros H; [rewrite H in HA | rewrite H in HB]; discriminate.
  - unfold id_then_datetime, datetime_then_id, bind.
    pose proof (add_id_cases w path fs) as HA.
    pose proof (update_datetime_cases path fs) as HU.
    rewrite Hread in HA, HU. rewrite HA, HU. split; discriminate.
Qed.

End OrderFacts.

(** ** Whole runs *)

Section RunFacts.
Import Text Calendar Py Polars Batch Spec Pattern Writer.







End RunFacts.

Section RandomFacts.
Import Py.



End RandomFacts.
